(** * Paint property binders of mbgl::style

    A shallow embedding of [src/mbgl/style/paint_property_binder.hpp]:
    the three single-property binders (constant, source function,
    composite function), the variant [PaintPropertyBinder] that dispatches
    to them and the tuple [PaintPropertyBinders] of one binder per paint
    property of a layer.

    Conventions of the embedding.
    - A C++ object is a record; a non-[const] method maps a record to the
      updated record, a [const] method is a function of the record (its
      body is also given as a computation on the members, module
      [Method], to show that it assigns to none).
      [populateVertexVector] also reports how many times it called
      [function.evaluate] (module [Counted]).
    - [std::size_t] lengths are [nat]: the only arithmetic on them is the
      [++i] of the population loop, guarded by [i < length], so it never
      wraps.
    - [float] is idealised as a real number ([R]): rounding, infinities and
      NaN are not modelled.
    - Dereferencing an empty [optional] is undefined behaviour in C++; the
      methods that may do it return an [option], [None] standing for the
      undefined case.
    - Classes that the header only uses ([Range], [SourceFunction],
      [CompositeFunction], the [gl::] and [attributes::] helpers,
      [util::interpolationFactor]) are declared elsewhere in the
      repository; each is introduced below with a note on where its model
      comes from. *)

From Stdlib Require Import List Arith Bool Lia ZArith Reals Lra.
Import ListNotations.

Set Implicit Arguments.

(** ** Supporting types *)

(** Modelled from the spec: [Range<T>] is declared outside this header; the
    header reads its members [min] and [max] ("a pair of style-defined zoom
    stops (lower, upper)"). *)
Module Range.

Record t (A : Type) : Type := mk { min : A; max : A }.

End Range.

(** An evaluation-counting writer monad.  [function.evaluate(...)] is the
    one call of the header whose number of executions the specification
    talks about ("exactly one evaluation per feature"); a computation in
    [Counted.t] returns its result together with the number of such calls it
    made. *)
Module Counted.

Definition t (A : Type) : Type := (A * nat)%type.

Definition ret {A : Type} (a : A) : t A := (a, 0).

Definition bind {A B : Type} (m : t A) (k : A -> t B) : t B :=
  let (a, n) := m in
  let (b, p) := k a in
  (b, n + p).

(** One call of an evaluator whose value is [a]. *)
Definition call {A : Type} (a : A) : t A := (a, 1).

Definition result {A : Type} (m : t A) : A := fst m.

Definition count {A : Type} (m : t A) : nat := snd m.

End Counted.

Notation "x <- m ;; k" := (Counted.bind m (fun x => k))
  (at level 61, m at next level, right associativity).

(** Modelled from the spec: [SourceFunction<T>] is declared outside this
    header.  It is an "expr over feature" whose evaluation may fail;
    [evaluate(feature, defaultValue)] falls "back to a property-defined
    default on evaluation failure". *)
Module SourceFunction.

Record t (Feature T : Type) : Type := mk {
  expression : Feature -> option T
}.

Definition evaluate {Feature T : Type} (f : t Feature T)
    (feature : Feature) (finalDefaultValue : T) : Counted.t T :=
  Counted.call
    match expression f feature with
    | Some v => v
    | None => finalDefaultValue
    end.

End SourceFunction.

(** Modelled from the spec: [CompositeFunction<T>] is declared outside this
    header.  It is an "expr over feature and zoom, as zoom stops", "each
    stop itself keyed by feature attribute".  It declares a
    zoom-interpolation [base]; [coveringRanges(zoom)] yields "a pair of
    style-defined zoom stops (lower, upper) bracketing the current zoom
    ... paired with the corresponding value-stops needed to evaluate the
    function per feature" (how the pair is searched for is not observable
    from the header, so it is a field); [evaluate(stops, feature,
    defaultValue)] evaluates "the function at the inner stops ... to obtain
    a (min, max) range for the feature", with the default substituted on
    evaluation failure. *)
Module CompositeFunction.

(** The per-attribute stops nested under one zoom stop. *)
Definition InnerStops (Feature T : Type) : Type := Feature -> option T.

Record t (Feature T : Type) : Type := mk {
  base : R;
  coveringRanges : R -> Range.t R * Range.t (InnerStops Feature T)
}.

Definition evaluate {Feature T : Type} (f : t Feature T)
    (coveringStops : Range.t (InnerStops Feature T))
    (feature : Feature) (finalDefaultValue : T) : Counted.t (Range.t T) :=
  let eval (s : InnerStops Feature T) :=
    match s feature with
    | Some v => v
    | None => finalDefaultValue
    end in
  Counted.call
    (Range.mk (eval (Range.min coveringStops))
              (eval (Range.max coveringStops))).

End CompositeFunction.

(** Modelled from the spec: [PossiblyEvaluatedPropertyValue<T>] is declared
    outside this header: a "tagged union, variants Constant(T),
    SourceFunction(expr over feature), CompositeFunction(expr over feature
    and zoom, as zoom stops)".  The header calls [isConstant()],
    [constant()] (an [optional<T>]) and [constantOr(T)] on it and matches
    on its three alternatives. *)
Module PossiblyEvaluatedPropertyValue.

Inductive t (Feature T : Type) : Type :=
| Constant (c : T)
| Source (f : SourceFunction.t Feature T)
| Composite (f : CompositeFunction.t Feature T).

Arguments Constant {Feature T} c.
Arguments Source {Feature T} f.
Arguments Composite {Feature T} f.

Definition isConstant {Feature T : Type} (v : t Feature T) : bool :=
  match v with
  | Constant _ => true
  | _ => false
  end.

Definition constant {Feature T : Type} (v : t Feature T) : option T :=
  match v with
  | Constant c => Some c
  | _ => None
  end.

Definition constantOr {Feature T : Type} (v : t Feature T) (d : T) : T :=
  match constant v with
  | Some c => c
  | None => d
  end.

End PossiblyEvaluatedPropertyValue.

(** Modelled from the spec: [util::interpolationFactor(base, range, z)] is
    declared outside this header.  It "computes a normalized position of
    [z] within the ... range using an exponential base ... (base 1.0 =>
    linear)": the position of [z - min] on the exponential curve of base
    [base] through 0 at [min] and 1 at [max], which for base 1 is the
    straight line. *)
Module util.

Definition interpolationFactor (base : R) (range : Range.t R) (z : R) : R :=
  let zoomDiff := (Range.max range - Range.min range)%R in
  let zoomProgress := (z - Range.min range)%R in
  if Req_dec_T base 1
  then (zoomProgress / zoomDiff)%R
  else ((Rpower base zoomProgress - 1) / (Rpower base zoomDiff - 1))%R.

End util.

(** Modelled from the spec: the [gl::] vertex types are declared outside
    this header.  A [VertexVector] is "an append-only, growable sequence of
    typed vertex records"; a [VertexBuffer] is "an immutable GPU-resident
    copy of a VertexVector", obtained from the context; an attribute
    binding is "either a constant value broadcast to every vertex (no
    buffer needed) or a buffer reference". *)
Module gl.

(** [gl::Attributes<A>::Vertex]: a record with the one attribute [a1]. *)
Record Vertex (Value : Type) : Type := mkVertex { a1 : Value }.

Definition VertexVector (V : Type) : Type := list V.

Definition vertexSize {V : Type} (v : VertexVector V) : nat := length v.

Definition emplace_back {V : Type} (v : VertexVector V) (x : V)
    : VertexVector V :=
  v ++ [x].

Record VertexBuffer (V : Type) : Type := mkVertexBuffer {
  contents : list V
}.

(** The context is only handed through to [createVertexBuffer]. *)
Inductive Context : Type := context.

Definition createVertexBuffer {V : Type} (c : Context) (v : VertexVector V)
    : VertexBuffer V :=
  mkVertexBuffer v.

Inductive AttributeBinding (Value V : Type) : Type :=
| ConstantAttributeBinding (value : Value)
| VariableAttributeBinding (buffer : VertexBuffer V).

Arguments ConstantAttributeBinding {Value V} value.
Arguments VariableAttributeBinding {Value V} buffer.

End gl.

(** Modelled from the spec: the [attributes::] helpers are declared outside
    this header.  An attribute [A] for property type [T] has a value type
    and the conversion [A::value]; [ZoomInterpolatedAttribute<A>::value(min,
    max)] "packs both endpoints into one attribute value". *)
Module attributes.

Record Attribute (T : Type) : Type := mkAttribute {
  Value : Type;
  value : T -> Value
}.

Definition ZoomInterpolatedValue {T : Type} (A : Attribute T) : Type :=
  (Value A * Value A)%type.

Definition zoomInterpolatedValue {T : Type} (A : Attribute T)
    (min max : T) : ZoomInterpolatedValue A :=
  (value A min, value A max).

(** [InterpolationUniform<A>::Value]: one scalar. *)
Record InterpolationUniformValue : Type := mkInterpolationUniformValue {
  t : R
}.

End attributes.

(** The population loop shared by the two function binders:
    [for (std::size_t i = vertexVector.vertexSize(); i < length; ++i)
       vertexVector.emplace_back(vertex);]
    [fuel] bounds the number of iterations; [length - i] always suffices
    (lemma [emplace_loop_fuel]). *)
Fixpoint emplace_loop {V : Type} (fuel i length : nat) (vertex : V)
    (vertexVector : gl.VertexVector V) : gl.VertexVector V :=
  match fuel with
  | O => vertexVector
  | S fuel' =>
      if i <? length
      then emplace_loop fuel' (S i) length vertex
             (gl.emplace_back vertexVector vertex)
      else vertexVector
  end.

(** ** The three single-property binders *)

(** [ConstantPaintPropertyBinder<T, A>] *)
Module ConstantPaintPropertyBinder.

Section Binder.

Variables Feature T : Type.
Variable A : attributes.Attribute T.

Definition AttributeValue : Type := attributes.Value A.
Definition AttributeBinding : Type :=
  gl.AttributeBinding AttributeValue (gl.Vertex AttributeValue).

Record t : Type := mk { constant : T }.

(** The constructor [ConstantPaintPropertyBinder(T constant_)]. *)
Definition make (constant_ : T) : t := mk constant_.

Definition populateVertexVector (b : t) (feature : Feature) (length : nat)
    : Counted.t t :=
  Counted.ret b.

Definition upload (b : t) (context : gl.Context) : t := b.

Definition attributeBinding (b : t)
    (currentValue : PossiblyEvaluatedPropertyValue.t Feature T)
    : AttributeBinding :=
  gl.ConstantAttributeBinding
    (attributes.value A
       (PossiblyEvaluatedPropertyValue.constantOr currentValue (constant b))).

Definition interpolationFactor (b : t) (currentZoom : R) : R := 0%R.

End Binder.

End ConstantPaintPropertyBinder.

(** [SourceFunctionPaintPropertyBinder<T, A>] *)
Module SourceFunctionPaintPropertyBinder.

Section Binder.

Variables Feature T : Type.
Variable A : attributes.Attribute T.

Definition AttributeValue : Type := attributes.Value A.
Definition Vertex : Type := gl.Vertex AttributeValue.
Definition AttributeBinding : Type := gl.AttributeBinding AttributeValue Vertex.

Record t : Type := mk {
  function : SourceFunction.t Feature T;
  defaultValue : T;
  vertexVector : gl.VertexVector Vertex;
  vertexBuffer : option (gl.VertexBuffer Vertex)
}.

(** The constructor: the vector and the buffer are default-initialised. *)
Definition make (function_ : SourceFunction.t Feature T) (defaultValue_ : T)
    : t :=
  mk function_ defaultValue_ [] None.

Definition populateVertexVector (b : t) (feature : Feature) (length : nat)
    : Counted.t t :=
  val <- SourceFunction.evaluate (function b) feature (defaultValue b) ;;
  let value : AttributeValue := attributes.value A val in
  Counted.ret
    (mk (function b) (defaultValue b)
        (emplace_loop (length - gl.vertexSize (vertexVector b))
           (gl.vertexSize (vertexVector b)) length
           (gl.mkVertex value) (vertexVector b))
        (vertexBuffer b)).

(** [vertexBuffer = context.createVertexBuffer(std::move(vertexVector))]:
    the vector is moved from, which leaves it empty. *)
Definition upload (b : t) (context : gl.Context) : t :=
  mk (function b) (defaultValue b) []
     (Some (gl.createVertexBuffer context (vertexVector b))).

(** [*currentValue.constant()] is only reached when [isConstant()] holds;
    [*vertexBuffer] is undefined while nothing was uploaded. *)
Definition attributeBinding (b : t)
    (currentValue : PossiblyEvaluatedPropertyValue.t Feature T)
    : option AttributeBinding :=
  if PossiblyEvaluatedPropertyValue.isConstant currentValue
  then
    match PossiblyEvaluatedPropertyValue.constant currentValue with
    | Some c => Some (gl.ConstantAttributeBinding (attributes.value A c))
    | None => None
    end
  else
    match vertexBuffer b with
    | Some buffer => Some (gl.VariableAttributeBinding buffer)
    | None => None
    end.

Definition interpolationFactor (b : t) (currentZoom : R) : R := 0%R.

End Binder.

End SourceFunctionPaintPropertyBinder.

(** [CompositeFunctionPaintPropertyBinder<T, A>] *)
Module CompositeFunctionPaintPropertyBinder.

Section Binder.

Variables Feature T : Type.
Variable A : attributes.Attribute T.

(** [using Attribute = attributes::ZoomInterpolatedAttribute<A>] *)
Definition AttributeValue : Type := attributes.ZoomInterpolatedValue A.
Definition Vertex : Type := gl.Vertex AttributeValue.
Definition AttributeBinding : Type := gl.AttributeBinding AttributeValue Vertex.

Definition InnerStops : Type := CompositeFunction.InnerStops Feature T.

Record t : Type := mk {
  function : CompositeFunction.t Feature T;
  defaultValue : T;
  coveringRanges : Range.t R * Range.t InnerStops;
  vertexVector : gl.VertexVector Vertex;
  vertexBuffer : option (gl.VertexBuffer Vertex)
}.

(** The constructor computes [coveringRanges] from the zoom it is given. *)
Definition make (function_ : CompositeFunction.t Feature T) (zoom : R)
    (defaultValue_ : T) : t :=
  mk function_ defaultValue_
     (CompositeFunction.coveringRanges function_ zoom) [] None.

Definition populateVertexVector (b : t) (feature : Feature) (length : nat)
    : Counted.t t :=
  range <- CompositeFunction.evaluate (function b) (snd (coveringRanges b))
             feature (defaultValue b) ;;
  let minMax : AttributeValue :=
    attributes.zoomInterpolatedValue A (Range.min range) (Range.max range) in
  Counted.ret
    (mk (function b) (defaultValue b) (coveringRanges b)
        (emplace_loop (length - gl.vertexSize (vertexVector b))
           (gl.vertexSize (vertexVector b)) length
           (gl.mkVertex minMax) (vertexVector b))
        (vertexBuffer b)).

Definition upload (b : t) (context : gl.Context) : t :=
  mk (function b) (defaultValue b) (coveringRanges b) []
     (Some (gl.createVertexBuffer context (vertexVector b))).

Definition attributeBinding (b : t)
    (currentValue : PossiblyEvaluatedPropertyValue.t Feature T)
    : option AttributeBinding :=
  if PossiblyEvaluatedPropertyValue.isConstant currentValue
  then
    match PossiblyEvaluatedPropertyValue.constant currentValue with
    | Some val =>
        Some (gl.ConstantAttributeBinding
                (attributes.zoomInterpolatedValue A val val))
    | None => None
    end
  else
    match vertexBuffer b with
    | Some buffer => Some (gl.VariableAttributeBinding buffer)
    | None => None
    end.

Definition interpolationFactor (b : t) (currentZoom : R) : R :=
  util.interpolationFactor 1 (fst (coveringRanges b)) currentZoom.

End Binder.

End CompositeFunctionPaintPropertyBinder.

(** ** The variant binder and the binders of a layer *)

(** Modelled from the spec: a paint property class is declared outside this
    header; the header uses its value type [Type], its [Attribute] and its
    [defaultValue()] ("the property's declared default value"). *)
Module PaintProperty.

Record t : Type := mk {
  Type_ : Type;
  Attribute : attributes.Attribute Type_;
  defaultValue : Type_
}.

End PaintProperty.

(** [PaintPropertyBinder<PaintProperty>]: the class holds the one member
    [binder], a variant of the three binders above; the embedding
    identifies the class with that variant. *)
Module PaintPropertyBinder.

Section Binder.

Variable Feature : Type.
Variable P : PaintProperty.t.

Definition Type_ : Type := PaintProperty.Type_ P.
Definition Attribute : attributes.Attribute Type_ := PaintProperty.Attribute P.

(** [PaintProperty::EvaluatedType] *)
Definition PropertyValue : Type :=
  PossiblyEvaluatedPropertyValue.t Feature Type_.

Inductive t : Type :=
| Constant (b : ConstantPaintPropertyBinder.t Type_)
| SourceFunction (b : SourceFunctionPaintPropertyBinder.t Feature Attribute)
| CompositeFunction
    (b : CompositeFunctionPaintPropertyBinder.t Feature Attribute).

(** [variant<Attribute::Binding, ZoomInterpolatedAttribute<Attribute>::Binding>] *)
Definition AttributeBinding : Type :=
  (ConstantPaintPropertyBinder.AttributeBinding Attribute
   + CompositeFunctionPaintPropertyBinder.AttributeBinding Attribute)%type.

Definition make (value : PropertyValue) (zoom : R) : t :=
  match value with
  | PossiblyEvaluatedPropertyValue.Constant constant =>
      Constant (ConstantPaintPropertyBinder.make constant)
  | PossiblyEvaluatedPropertyValue.Source function =>
      SourceFunction
        (SourceFunctionPaintPropertyBinder.make Attribute function
           (PaintProperty.defaultValue P))
  | PossiblyEvaluatedPropertyValue.Composite function =>
      CompositeFunction
        (CompositeFunctionPaintPropertyBinder.make Attribute function zoom
           (PaintProperty.defaultValue P))
  end.

Definition populateVertexVector (binder : t) (feature : Feature)
    (length : nat) : Counted.t t :=
  match binder with
  | Constant b =>
      b' <- ConstantPaintPropertyBinder.populateVertexVector b feature length ;;
      Counted.ret (Constant b')
  | SourceFunction b =>
      b' <- SourceFunctionPaintPropertyBinder.populateVertexVector
              b feature length ;;
      Counted.ret (SourceFunction b')
  | CompositeFunction b =>
      b' <- CompositeFunctionPaintPropertyBinder.populateVertexVector
              b feature length ;;
      Counted.ret (CompositeFunction b')
  end.

Definition upload (binder : t) (context : gl.Context) : t :=
  match binder with
  | Constant b => Constant (ConstantPaintPropertyBinder.upload b context)
  | SourceFunction b =>
      SourceFunction (SourceFunctionPaintPropertyBinder.upload b context)
  | CompositeFunction b =>
      CompositeFunction (CompositeFunctionPaintPropertyBinder.upload b context)
  end.

Definition attributeBinding (binder : t) (currentValue : PropertyValue)
    : option AttributeBinding :=
  match binder with
  | Constant b =>
      Some (inl (ConstantPaintPropertyBinder.attributeBinding
                   Attribute b currentValue))
  | SourceFunction b =>
      option_map inl
        (SourceFunctionPaintPropertyBinder.attributeBinding b currentValue)
  | CompositeFunction b =>
      option_map inr
        (CompositeFunctionPaintPropertyBinder.attributeBinding b currentValue)
  end.

Definition interpolationUniformValue (binder : t) (currentZoom : R)
    : attributes.InterpolationUniformValue :=
  attributes.mkInterpolationUniformValue
    match binder with
    | Constant b => ConstantPaintPropertyBinder.interpolationFactor b currentZoom
    | SourceFunction b =>
        SourceFunctionPaintPropertyBinder.interpolationFactor b currentZoom
    | CompositeFunction b =>
        CompositeFunctionPaintPropertyBinder.interpolationFactor b currentZoom
    end.

(** The vertex stream a binder has accumulated; a constant binder keeps
    none. *)
Definition VertexRecord : Type :=
  (SourceFunctionPaintPropertyBinder.Vertex Attribute
   + CompositeFunctionPaintPropertyBinder.Vertex Attribute)%type.

Definition vertexStream (binder : t) : list VertexRecord :=
  match binder with
  | Constant _ => []
  | SourceFunction b =>
      map inl (SourceFunctionPaintPropertyBinder.vertexVector b)
  | CompositeFunction b =>
      map inr (CompositeFunctionPaintPropertyBinder.vertexVector b)
  end.

(** A sequence of [populateVertexVector] calls, one per (feature, length)
    pair, as the tile worker issues them. *)
Definition populateSequence (binder : t) (calls : list (Feature * nat)) : t :=
  fold_left
    (fun b call =>
       Counted.result (populateVertexVector b (fst call) (snd call)))
    calls binder.

(** The public interface as a transition system: a call takes the binder
    to its next state and returns a value. *)
Inductive Call : Type :=
| CallPopulateVertexVector (feature : Feature) (length : nat)
| CallUpload (context : gl.Context)
| CallAttributeBinding (currentValue : PropertyValue)
| CallInterpolationUniformValue (currentZoom : R).

Inductive Return : Type :=
| ReturnVoid
| ReturnAttributeBinding (r : option AttributeBinding)
| ReturnInterpolationUniformValue (r : attributes.InterpolationUniformValue).

(** The methods declared [const]. *)
Definition isConst (c : Call) : bool :=
  match c with
  | CallAttributeBinding _ | CallInterpolationUniformValue _ => true
  | CallPopulateVertexVector _ _ | CallUpload _ => false
  end.

Definition step (c : Call) (binder : t) : t * Return :=
  match c with
  | CallPopulateVertexVector feature length =>
      (Counted.result (populateVertexVector binder feature length), ReturnVoid)
  | CallUpload context => (upload binder context, ReturnVoid)
  | CallAttributeBinding currentValue =>
      (binder, ReturnAttributeBinding (attributeBinding binder currentValue))
  | CallInterpolationUniformValue currentZoom =>
      (binder,
       ReturnInterpolationUniformValue
         (interpolationUniformValue binder currentZoom))
  end.

Fixpoint run (cs : list Call) (binder : t) : t * list Return :=
  match cs with
  | [] => (binder, [])
  | c :: cs' =>
      let (binder', r) := step c binder in
      let (binder'', rs) := run cs' binder' in
      (binder'', r :: rs)
  end.

(** Which alternative of the variant a binder holds, and which alternative
    a property value holds. *)
Inductive Kind : Type :=
| ConstantKind
| SourceFunctionKind
| CompositeFunctionKind.

Definition kind (binder : t) : Kind :=
  match binder with
  | Constant _ => ConstantKind
  | SourceFunction _ => SourceFunctionKind
  | CompositeFunction _ => CompositeFunctionKind
  end.

Definition valueKind (value : PropertyValue) : Kind :=
  match value with
  | PossiblyEvaluatedPropertyValue.Constant _ => ConstantKind
  | PossiblyEvaluatedPropertyValue.Source _ => SourceFunctionKind
  | PossiblyEvaluatedPropertyValue.Composite _ => CompositeFunctionKind
  end.

(** The number of [function.evaluate] calls one population makes. *)
Definition evaluations (binder : t) : nat :=
  match binder with
  | Constant _ => 0
  | SourceFunction _ | CompositeFunction _ => 1
  end.

(** Whether [*vertexBuffer] is defined: a constant binder has no buffer to
    dereference, the other two hold an [optional] one. *)
Definition bufferReady (binder : t) : bool :=
  match binder with
  | Constant _ => true
  | SourceFunction b =>
      match SourceFunctionPaintPropertyBinder.vertexBuffer b with
      | Some _ => true
      | None => false
      end
  | CompositeFunction b =>
      match CompositeFunctionPaintPropertyBinder.vertexBuffer b with
      | Some _ => true
      | None => false
      end
  end.

(** The vertex record a binder writes for a feature: [Vertex { value }] of
    the source binder, [Vertex { minMax }] of the composite binder, none
    for a constant binder. *)
Definition featureVertex (binder : t) (feature : Feature)
    : option VertexRecord :=
  match binder with
  | Constant _ => None
  | SourceFunction b =>
      let val :=
        Counted.result
          (SourceFunction.evaluate
             (SourceFunctionPaintPropertyBinder.function b) feature
             (SourceFunctionPaintPropertyBinder.defaultValue b)) in
      Some (inl (gl.mkVertex (attributes.value Attribute val)))
  | CompositeFunction b =>
      let range :=
        Counted.result
          (CompositeFunction.evaluate
             (CompositeFunctionPaintPropertyBinder.function b)
             (snd (CompositeFunctionPaintPropertyBinder.coveringRanges b))
             feature (CompositeFunctionPaintPropertyBinder.defaultValue b)) in
      Some (inr (gl.mkVertex
                   (attributes.zoomInterpolatedValue Attribute
                      (Range.min range) (Range.max range))))
  end.

Definition featureVertices (binder : t) (feature : Feature) (n : nat)
    : list VertexRecord :=
  match featureVertex binder feature with
  | Some vertex => repeat vertex n
  | None => []
  end.

(** What a sequence of population calls appends to a stream that holds
    [prior] vertices: for each call, in order, the feature's vertex as many
    times as the call's target length exceeds the vertex count reached so
    far. *)
Fixpoint expectedStream (binder : t) (prior : nat)
    (calls : list (Feature * nat)) : list VertexRecord :=
  match calls with
  | [] => []
  | call :: calls' =>
      featureVertices binder (fst call) (snd call - prior)
      ++ expectedStream binder (Nat.max prior (snd call)) calls'
  end.

End Binder.

Arguments Constant {Feature P} b.
Arguments SourceFunction {Feature P} b.
Arguments CompositeFunction {Feature P} b.

End PaintPropertyBinder.

(** [IndexedTuple<TypeList<Ps...>, TypeList<F<Ps>...>>]: one component per
    property of the type list, in the order of the list. *)
Fixpoint IndexedTuple (F : PaintProperty.t -> Type)
    (Ps : list PaintProperty.t) : Type :=
  match Ps with
  | [] => unit
  | P :: Ps' => (F P * IndexedTuple F Ps')%type
  end.

(** [PaintPropertyBinders<TypeList<Ps...>>]: the class holds the one member
    [binders]; each method expands a parameter pack over [Ps...] inside a
    braced list, which evaluates the components from left to right. *)
Module PaintPropertyBinders.

Section Binders.

Variable Feature : Type.

Definition Binders (Ps : list PaintProperty.t) : Type :=
  IndexedTuple (PaintPropertyBinder.t Feature) Ps.

Definition EvaluatedProperties (Ps : list PaintProperty.t) : Type :=
  IndexedTuple (PaintPropertyBinder.PropertyValue Feature) Ps.

Definition AttributeBindings (Ps : list PaintProperty.t) : Type :=
  IndexedTuple PaintPropertyBinder.AttributeBinding Ps.

Definition UniformValues (Ps : list PaintProperty.t) : Type :=
  IndexedTuple (fun _ => attributes.InterpolationUniformValue) Ps.

Fixpoint make (Ps : list PaintProperty.t)
    : EvaluatedProperties Ps -> R -> Binders Ps :=
  match Ps with
  | [] => fun _ _ => tt
  | P :: Ps' => fun properties z =>
      (PaintPropertyBinder.make (fst properties) z,
       make Ps' (snd properties) z)
  end.

Fixpoint populateVertexVectors (Ps : list PaintProperty.t)
    : Binders Ps -> Feature -> nat -> Counted.t (Binders Ps) :=
  match Ps with
  | [] => fun binders _ _ => Counted.ret binders
  | P :: Ps' => fun binders feature length =>
      b <- PaintPropertyBinder.populateVertexVector
             (fst binders) feature length ;;
      bs <- populateVertexVectors Ps' (snd binders) feature length ;;
      Counted.ret (b, bs)
  end.

Fixpoint upload (Ps : list PaintProperty.t)
    : Binders Ps -> gl.Context -> Binders Ps :=
  match Ps with
  | [] => fun binders _ => binders
  | P :: Ps' => fun binders context =>
      (PaintPropertyBinder.upload (fst binders) context,
       upload Ps' (snd binders) context)
  end.

(** The result is defined when every component is. *)
Fixpoint attributeBindings (Ps : list PaintProperty.t)
    : Binders Ps -> EvaluatedProperties Ps -> option (AttributeBindings Ps) :=
  match Ps with
  | [] => fun _ _ => Some tt
  | P :: Ps' => fun binders currentProperties =>
      match PaintPropertyBinder.attributeBinding
              (fst binders) (fst currentProperties),
            attributeBindings Ps' (snd binders) (snd currentProperties) with
      | Some b, Some bs => Some (b, bs)
      | _, _ => None
      end
  end.

Fixpoint uniformValues (Ps : list PaintProperty.t)
    : Binders Ps -> R -> UniformValues Ps :=
  match Ps with
  | [] => fun _ _ => tt
  | P :: Ps' => fun binders currentZoom =>
      (PaintPropertyBinder.interpolationUniformValue (fst binders) currentZoom,
       uniformValues Ps' (snd binders) currentZoom)
  end.

(** The vertex counts of the function-bound (source or composite) binders
    of a layer, in property order. *)
Fixpoint streamSizes (Ps : list PaintProperty.t) : Binders Ps -> list nat :=
  match Ps with
  | [] => fun _ => []
  | P :: Ps' => fun binders =>
      match PaintPropertyBinder.kind (fst binders) with
      | PaintPropertyBinder.ConstantKind => streamSizes Ps' (snd binders)
      | _ =>
          length (PaintPropertyBinder.vertexStream (fst binders))
          :: streamSizes Ps' (snd binders)
      end
  end.

(** The number of function-bound binders of a layer. *)
Fixpoint functionBound (Ps : list PaintProperty.t) : Binders Ps -> nat :=
  match Ps with
  | [] => fun _ => 0
  | P :: Ps' => fun binders =>
      PaintPropertyBinder.evaluations (fst binders)
      + functionBound Ps' (snd binders)
  end.

(** Every binder of the layer can dereference its buffer. *)
Fixpoint bufferReady (Ps : list PaintProperty.t) : Binders Ps -> bool :=
  match Ps with
  | [] => fun _ => true
  | P :: Ps' => fun binders =>
      PaintPropertyBinder.bufferReady (fst binders)
      && bufferReady Ps' (snd binders)
  end.

(** Every property either has its buffer ready or currently evaluates to a
    constant. *)
Fixpoint bindable (Ps : list PaintProperty.t)
    : Binders Ps -> EvaluatedProperties Ps -> bool :=
  match Ps with
  | [] => fun _ _ => true
  | P :: Ps' => fun binders currentProperties =>
      (PaintPropertyBinder.bufferReady (fst binders)
       || PossiblyEvaluatedPropertyValue.isConstant (fst currentProperties))
      && bindable Ps' (snd binders) (snd currentProperties)
  end.

Section Calls.

Variable Ps : list PaintProperty.t.

Inductive Call : Type :=
| CallPopulateVertexVectors (feature : Feature) (length : nat)
| CallUpload (context : gl.Context)
| CallAttributeBindings (currentProperties : EvaluatedProperties Ps)
| CallUniformValues (currentZoom : R).

Inductive Return : Type :=
| ReturnVoid
| ReturnAttributeBindings (r : option (AttributeBindings Ps))
| ReturnUniformValues (r : UniformValues Ps).

Definition isConst (c : Call) : bool :=
  match c with
  | CallAttributeBindings _ | CallUniformValues _ => true
  | CallPopulateVertexVectors _ _ | CallUpload _ => false
  end.

Definition step (c : Call) (binders : Binders Ps) : Binders Ps * Return :=
  match c with
  | CallPopulateVertexVectors feature length =>
      (Counted.result (populateVertexVectors Ps binders feature length),
       ReturnVoid)
  | CallUpload context => (upload Ps binders context, ReturnVoid)
  | CallAttributeBindings currentProperties =>
      (binders,
       ReturnAttributeBindings (attributeBindings Ps binders currentProperties))
  | CallUniformValues currentZoom =>
      (binders, ReturnUniformValues (uniformValues Ps binders currentZoom))
  end.

Fixpoint run (cs : list Call) (binders : Binders Ps)
    : Binders Ps * list Return :=
  match cs with
  | [] => (binders, [])
  | c :: cs' =>
      let (binders', r) := step c binders in
      let (binders'', rs) := run cs' binders' in
      (binders'', r :: rs)
  end.

End Calls.

End Binders.

Arguments make {Feature} Ps _ _.
Arguments upload {Feature} Ps _ _.
Arguments attributeBindings {Feature} Ps _ _.
Arguments uniformValues {Feature} Ps _ _.
Arguments streamSizes {Feature} Ps _.
Arguments functionBound {Feature} Ps _.
Arguments bufferReady {Feature} Ps _.
Arguments bindable {Feature} Ps _ _.

End PaintPropertyBinders.

(** ** The [const] methods as computations over the members

    The functions above give what a [const] method returns.  Here the body
    of each [const] method is written out as a computation that runs on
    the object's members: it may read a member, dereference an [optional]
    (undefined when it is empty) and, as far as the monad goes, write a
    member.  Whether a method leaves the object as it found it is then a
    property of its body. *)
Module Method.

(** A computation on a state [S]: undefined ([None]), or a result and the
    state it leaves. *)
Definition t (S A : Type) : Type := S -> option (A * S).

Definition ret {S A : Type} (a : A) : t S A := fun s => Some (a, s).

Definition bind {S A B : Type} (m : t S A) (k : A -> t S B) : t S B :=
  fun s =>
    match m s with
    | Some (a, s') => k a s'
    | None => None
    end.

(** Reading the member [member]. *)
Definition read {S A : Type} (member : S -> A) : t S A :=
  fun s => Some (member s, s).

(** Replacing the object by [update] of it: an assignment to members. *)
Definition modify {S : Type} (update : S -> S) : t S unit :=
  fun s => Some (tt, update s).

(** [*o] for an [optional] [o]. *)
Definition deref {S A : Type} (o : option A) : t S A :=
  fun s =>
    match o with
    | Some a => Some (a, s)
    | None => None
    end.

(** Running a method of a member object: the member is taken out with
    [get] and what the method leaves of it is put back with [set]. *)
Definition member {S S' A : Type} (get : S -> S') (set : S -> S' -> S)
    (m : t S' A) : t S A :=
  fun s =>
    match m (get s) with
    | Some (a, s') => Some (a, set s s')
    | None => None
    end.

(** Running a method on the alternative [b] a variant holds; [wrap] is the
    variant's constructor of that alternative. *)
Definition alternative {S S' A : Type} (wrap : S' -> S) (m : t S' A)
    (b : S') : option (A * S) :=
  match m b with
  | Some (a, b') => Some (a, wrap b')
  | None => None
  end.

End Method.

Notation "x <~ m ;; k" := (Method.bind m (fun x => k))
  (at level 61, m at next level, right associativity).

(** The [const] methods of [ConstantPaintPropertyBinder<T, A>]. *)
Module ConstantPaintPropertyBinderMethods.

Section Methods.

Variables Feature T : Type.
Variable A : attributes.Attribute T.

Definition attributeBinding
    (currentValue : PossiblyEvaluatedPropertyValue.t Feature T)
    : Method.t (ConstantPaintPropertyBinder.t T)
        (ConstantPaintPropertyBinder.AttributeBinding A) :=
  constant <~ Method.read (@ConstantPaintPropertyBinder.constant T) ;;
  Method.ret
    (gl.ConstantAttributeBinding
       (attributes.value A
          (PossiblyEvaluatedPropertyValue.constantOr currentValue constant))).

Definition interpolationFactor (currentZoom : R)
    : Method.t (ConstantPaintPropertyBinder.t T) R :=
  Method.ret 0%R.

End Methods.

End ConstantPaintPropertyBinderMethods.

(** The [const] methods of [SourceFunctionPaintPropertyBinder<T, A>]. *)
Module SourceFunctionPaintPropertyBinderMethods.

Section Methods.

Variables Feature T : Type.
Variable A : attributes.Attribute T.

Definition attributeBinding
    (currentValue : PossiblyEvaluatedPropertyValue.t Feature T)
    : Method.t (SourceFunctionPaintPropertyBinder.t Feature A)
        (SourceFunctionPaintPropertyBinder.AttributeBinding A) :=
  if PossiblyEvaluatedPropertyValue.isConstant currentValue
  then
    c <~ Method.deref
           (PossiblyEvaluatedPropertyValue.constant currentValue) ;;
    Method.ret (gl.ConstantAttributeBinding (attributes.value A c))
  else
    vertexBuffer <~ Method.read
                      (@SourceFunctionPaintPropertyBinder.vertexBuffer
                         Feature T A) ;;
    buffer <~ Method.deref vertexBuffer ;;
    Method.ret (gl.VariableAttributeBinding buffer).

Definition interpolationFactor (currentZoom : R)
    : Method.t (SourceFunctionPaintPropertyBinder.t Feature A) R :=
  Method.ret 0%R.

End Methods.

End SourceFunctionPaintPropertyBinderMethods.

(** The [const] methods of [CompositeFunctionPaintPropertyBinder<T, A>]. *)
Module CompositeFunctionPaintPropertyBinderMethods.

Section Methods.

Variables Feature T : Type.
Variable A : attributes.Attribute T.

Definition attributeBinding
    (currentValue : PossiblyEvaluatedPropertyValue.t Feature T)
    : Method.t (CompositeFunctionPaintPropertyBinder.t Feature A)
        (CompositeFunctionPaintPropertyBinder.AttributeBinding A) :=
  if PossiblyEvaluatedPropertyValue.isConstant currentValue
  then
    val <~ Method.deref
             (PossiblyEvaluatedPropertyValue.constant currentValue) ;;
    Method.ret
      (gl.ConstantAttributeBinding
         (attributes.zoomInterpolatedValue A val val))
  else
    vertexBuffer <~ Method.read
                      (@CompositeFunctionPaintPropertyBinder.vertexBuffer
                         Feature T A) ;;
    buffer <~ Method.deref vertexBuffer ;;
    Method.ret (gl.VariableAttributeBinding buffer).

Definition interpolationFactor (currentZoom : R)
    : Method.t (CompositeFunctionPaintPropertyBinder.t Feature A) R :=
  coveringRanges <~ Method.read
                      (@CompositeFunctionPaintPropertyBinder.coveringRanges
                         Feature T A) ;;
  Method.ret (util.interpolationFactor 1 (fst coveringRanges) currentZoom).

End Methods.

End CompositeFunctionPaintPropertyBinderMethods.

(** The [const] methods of [PaintPropertyBinder<PaintProperty>], and its
    public interface as calls that run on the member [binder]. *)
Module PaintPropertyBinderMethods.

Section Methods.

Variable Feature : Type.
Variable P : PaintProperty.t.

Let Attribute := PaintPropertyBinder.Attribute P.

(** [binder.match([&] (const auto& b) { return b.attributeBinding(...); })] *)
Definition attributeBinding
    (currentValue : PaintPropertyBinder.PropertyValue Feature P)
    : Method.t (PaintPropertyBinder.t Feature P)
        (PaintPropertyBinder.AttributeBinding P) :=
  fun binder =>
    match binder with
    | PaintPropertyBinder.Constant b =>
        Method.alternative (@PaintPropertyBinder.Constant Feature P)
          (r <~ ConstantPaintPropertyBinderMethods.attributeBinding
                  Attribute currentValue ;;
           Method.ret (inl r))
          b
    | PaintPropertyBinder.SourceFunction b =>
        Method.alternative (@PaintPropertyBinder.SourceFunction Feature P)
          (r <~ SourceFunctionPaintPropertyBinderMethods.attributeBinding
                  currentValue ;;
           Method.ret (inl r))
          b
    | PaintPropertyBinder.CompositeFunction b =>
        Method.alternative (@PaintPropertyBinder.CompositeFunction Feature P)
          (r <~ CompositeFunctionPaintPropertyBinderMethods.attributeBinding
                  currentValue ;;
           Method.ret (inr r))
          b
    end.

Definition interpolationUniformValue (currentZoom : R)
    : Method.t (PaintPropertyBinder.t Feature P)
        attributes.InterpolationUniformValue :=
  fun binder =>
    match binder with
    | PaintPropertyBinder.Constant b =>
        Method.alternative (@PaintPropertyBinder.Constant Feature P)
          (factor <~ ConstantPaintPropertyBinderMethods.interpolationFactor
                       currentZoom ;;
           Method.ret (attributes.mkInterpolationUniformValue factor))
          b
    | PaintPropertyBinder.SourceFunction b =>
        Method.alternative (@PaintPropertyBinder.SourceFunction Feature P)
          (factor <~ SourceFunctionPaintPropertyBinderMethods.interpolationFactor
                       currentZoom ;;
           Method.ret (attributes.mkInterpolationUniformValue factor))
          b
    | PaintPropertyBinder.CompositeFunction b =>
        Method.alternative (@PaintPropertyBinder.CompositeFunction Feature P)
          (factor <~ CompositeFunctionPaintPropertyBinderMethods.interpolationFactor
                       currentZoom ;;
           Method.ret (attributes.mkInterpolationUniformValue factor))
          b
    end.

(** One call of the public interface; the two methods that are not
    [const] assign to members as given by [populateVertexVector] and
    [upload] above. *)
Definition call (c : PaintPropertyBinder.Call Feature P)
    : Method.t (PaintPropertyBinder.t Feature P)
        (PaintPropertyBinder.Return P) :=
  match c with
  | @PaintPropertyBinder.CallPopulateVertexVector _ _ feature length =>
      _ <~ Method.modify
             (fun binder =>
                Counted.result
                  (PaintPropertyBinder.populateVertexVector
                     binder feature length)) ;;
      Method.ret (PaintPropertyBinder.ReturnVoid P)
  | @PaintPropertyBinder.CallUpload _ _ context =>
      _ <~ Method.modify
             (fun binder => PaintPropertyBinder.upload binder context) ;;
      Method.ret (PaintPropertyBinder.ReturnVoid P)
  | @PaintPropertyBinder.CallAttributeBinding _ _ currentValue =>
      r <~ attributeBinding currentValue ;;
      Method.ret (PaintPropertyBinder.ReturnAttributeBinding (Some r))
  | @PaintPropertyBinder.CallInterpolationUniformValue _ _ currentZoom =>
      r <~ interpolationUniformValue currentZoom ;;
      Method.ret (PaintPropertyBinder.ReturnInterpolationUniformValue P r)
  end.

Fixpoint run (cs : list (PaintPropertyBinder.Call Feature P))
    : Method.t (PaintPropertyBinder.t Feature P)
        (list (PaintPropertyBinder.Return P)) :=
  match cs with
  | [] => Method.ret []
  | c :: cs' =>
      r <~ call c ;;
      rs <~ run cs' ;;
      Method.ret (r :: rs)
  end.

End Methods.

End PaintPropertyBinderMethods.

(** The [const] methods of [PaintPropertyBinders<TypeList<Ps...>>]: each
    expands its pack over the components of the member [binders], from
    left to right. *)
Module PaintPropertyBindersMethods.

Section Methods.

Variable Feature : Type.

Fixpoint attributeBindings (Ps : list PaintProperty.t)
    : PaintPropertyBinders.EvaluatedProperties Feature Ps ->
      Method.t (PaintPropertyBinders.Binders Feature Ps)
        (PaintPropertyBinders.AttributeBindings Ps) :=
  match Ps with
  | [] => fun _ => Method.ret tt
  | P :: Ps' => fun currentProperties =>
      b <~ Method.member fst (fun binders b' => (b', snd binders))
             (PaintPropertyBinderMethods.attributeBinding
                (fst currentProperties)) ;;
      bs <~ Method.member snd (fun binders bs' => (fst binders, bs'))
              (attributeBindings Ps' (snd currentProperties)) ;;
      Method.ret (b, bs)
  end.

Fixpoint uniformValues (Ps : list PaintProperty.t)
    : R ->
      Method.t (PaintPropertyBinders.Binders Feature Ps)
        (PaintPropertyBinders.UniformValues Ps) :=
  match Ps with
  | [] => fun _ => Method.ret tt
  | P :: Ps' => fun currentZoom =>
      u <~ Method.member fst (fun binders b' => (b', snd binders))
             (PaintPropertyBinderMethods.interpolationUniformValue
                (P := P) currentZoom) ;;
      us <~ Method.member snd (fun binders bs' => (fst binders, bs'))
              (uniformValues Ps' currentZoom) ;;
      Method.ret (u, us)
  end.

Section Calls.

Variable Ps : list PaintProperty.t.

Definition call (c : PaintPropertyBinders.Call Feature Ps)
    : Method.t (PaintPropertyBinders.Binders Feature Ps)
        (PaintPropertyBinders.Return Ps) :=
  match c with
  | @PaintPropertyBinders.CallPopulateVertexVectors _ _ feature length =>
      _ <~ Method.modify
             (fun binders =>
                Counted.result
                  (PaintPropertyBinders.populateVertexVectors Ps
                     binders feature length)) ;;
      Method.ret (PaintPropertyBinders.ReturnVoid Ps)
  | @PaintPropertyBinders.CallUpload _ _ context =>
      _ <~ Method.modify
             (fun binders => PaintPropertyBinders.upload Ps binders context) ;;
      Method.ret (PaintPropertyBinders.ReturnVoid Ps)
  | @PaintPropertyBinders.CallAttributeBindings _ _ currentProperties =>
      r <~ attributeBindings Ps currentProperties ;;
      Method.ret (PaintPropertyBinders.ReturnAttributeBindings Ps (Some r))
  | @PaintPropertyBinders.CallUniformValues _ _ currentZoom =>
      r <~ uniformValues Ps currentZoom ;;
      Method.ret (PaintPropertyBinders.ReturnUniformValues Ps r)
  end.

Fixpoint run (cs : list (PaintPropertyBinders.Call Feature Ps))
    : Method.t (PaintPropertyBinders.Binders Feature Ps)
        (list (PaintPropertyBinders.Return Ps)) :=
  match cs with
  | [] => Method.ret []
  | c :: cs' =>
      r <~ call c ;;
      rs <~ run cs' ;;
      Method.ret (r :: rs)
  end.

End Calls.

End Methods.

Arguments attributeBindings {Feature} Ps _ _.
Arguments uniformValues {Feature} Ps _ _.

End PaintPropertyBindersMethods.

(** ** Concrete data for the scenarios of the specification *)
Module Scenario.

(** A feature with one numeric attribute, [size]. *)
Record Feature : Type := mkFeature { size : Z }.

(** An attribute over integer property values whose attribute value is the
    property value itself. *)
Definition A : attributes.Attribute Z :=
  attributes.mkAttribute (fun x : Z => x).

(** The source function [f(feature) = feature.size * 2]. *)
Definition sizeTimesTwo : SourceFunction.t Feature Z :=
  SourceFunction.mk (fun feature => Some (size feature * 2)%Z).

(** A source function whose evaluation fails on every feature. *)
Definition failing : SourceFunction.t Feature Z :=
  SourceFunction.mk (fun _ => None).

(** The inner stops used under every zoom stop of the composite functions
    below: the feature's size at the lower stop, twice the size at the
    upper one. *)
Definition innerStops : Range.t (CompositeFunction.InnerStops Feature Z) :=
  Range.mk (fun feature => Some (size feature))
           (fun feature => Some (size feature * 2)%Z).

(** A composite function with zoom stops [10, 15] that declares the
    zoom-interpolation base [base]. *)
Definition stops_10_15 (base : R) : CompositeFunction.t Feature Z :=
  CompositeFunction.mk base (fun _ => (Range.mk 10%R 15%R, innerStops)).

(** A composite function with zoom stops [10, 15, 20]. *)
Definition stops_10_15_20 : CompositeFunction.t Feature Z :=
  CompositeFunction.mk 1%R
    (fun zoom =>
       if Rlt_dec zoom 15
       then (Range.mk 10%R 15%R, innerStops)
       else (Range.mk 15%R 20%R, innerStops)).

(** The paint property of the scenarios: integer values, default 1. *)
Definition property : PaintProperty.t := PaintProperty.mk A 1%Z.

End Scenario.

(** ** The population loop *)

Unset Implicit Arguments.

Section EmplaceLoop.

Variable V : Type.

(** With at least [length - i] units of fuel the loop runs to its exit
    test and has appended [length - i] copies of the vertex. *)
Lemma emplace_loop_fuel (fuel i length : nat) (vertex : V)
    (vertexVector : gl.VertexVector V) :
  length - i <= fuel ->
  emplace_loop fuel i length vertex vertexVector
  = vertexVector ++ repeat vertex (length - i).
Proof.
  revert i vertexVector.
  induction fuel as [|fuel IH]; intros i vec Hfuel; simpl.
  - replace (length - i) with 0 by lia. simpl. now rewrite app_nil_r.
  - destruct (Nat.ltb_spec i length) as [Hlt|Hge].
    + rewrite IH by lia. unfold gl.emplace_back.
      replace (length - i) with (S (length - S i)) by lia.
      simpl. now rewrite <- app_assoc.
    + replace (length - i) with 0 by lia. simpl. now rewrite app_nil_r.
Qed.

(** The loop as the binders call it. *)
Lemma emplace_loop_repeat (length : nat) (vertex : V)
    (vertexVector : gl.VertexVector V) :
  emplace_loop (length - gl.vertexSize vertexVector)
    (gl.vertexSize vertexVector) length vertex vertexVector
  = vertexVector ++ repeat vertex (length - gl.vertexSize vertexVector).
Proof. apply emplace_loop_fuel. lia. Qed.

End EmplaceLoop.

(** ** Source-function binder: population *)

Section SourcePopulate.

Variables Feature T : Type.
Variable A : attributes.Attribute T.

Let binder : Type := SourceFunctionPaintPropertyBinder.t Feature A.

(** The record a [populateVertexVector] call leaves behind, in closed
    form. *)
Lemma source_populate_result (b : binder) (feature : Feature) (length : nat) :
  Counted.result
    (SourceFunctionPaintPropertyBinder.populateVertexVector b feature length)
  = SourceFunctionPaintPropertyBinder.mk
      (SourceFunctionPaintPropertyBinder.function b)
      (SourceFunctionPaintPropertyBinder.defaultValue b)
      (SourceFunctionPaintPropertyBinder.vertexVector b
       ++ repeat
            (gl.mkVertex
               (attributes.value A
                  (Counted.result
                     (SourceFunction.evaluate
                        (SourceFunctionPaintPropertyBinder.function b) feature
                        (SourceFunctionPaintPropertyBinder.defaultValue b)))))
            (length
             - gl.vertexSize (SourceFunctionPaintPropertyBinder.vertexVector b)))
      (SourceFunctionPaintPropertyBinder.vertexBuffer b).
Proof.
  unfold SourceFunctionPaintPropertyBinder.populateVertexVector.
  cbn [SourceFunction.evaluate Counted.call Counted.bind Counted.ret
       Counted.result fst].
  now rewrite emplace_loop_repeat.
Qed.

Lemma source_populate_count (b : binder) (feature : Feature) (length : nat) :
  Counted.count
    (SourceFunctionPaintPropertyBinder.populateVertexVector b feature length)
  = 1.
Proof. reflexivity. Qed.

End SourcePopulate.

(** C2.  A [populateVertexVector(feature, targetLength)] call on a
    source-function binder, with [targetLength] at least the current vertex
    count, evaluates the function on the feature exactly once, the value
    being the expression's value or, when the expression fails, the
    binder's default; it appends exactly [targetLength - priorLength]
    vertices holding that one value, so that the stream reaches
    [targetLength], and changes nothing else.  For a layer whose one
    property is bound to [f(feature) = feature.size * 2] with default 1,
    features of sizes 3 and 5 with 4 and 6 vertices (target lengths 4 and
    10) give four vertices valued 6 followed by six valued 10, after two
    evaluations; a failing function gives the default. *)
Theorem source_populateVertexVector_replicates :
  (forall (Feature T : Type) (A : attributes.Attribute T)
          (b : SourceFunctionPaintPropertyBinder.t Feature A)
          (feature : Feature) (targetLength : nat),
      gl.vertexSize (SourceFunctionPaintPropertyBinder.vertexVector b)
      <= targetLength ->
      let r :=
        SourceFunctionPaintPropertyBinder.populateVertexVector
          b feature targetLength in
      let val :=
        match SourceFunction.expression
                (SourceFunctionPaintPropertyBinder.function b) feature with
        | Some v => v
        | None => SourceFunctionPaintPropertyBinder.defaultValue b
        end in
      Counted.count r = 1
      /\ SourceFunctionPaintPropertyBinder.vertexVector (Counted.result r)
         = SourceFunctionPaintPropertyBinder.vertexVector b
           ++ repeat (gl.mkVertex (attributes.value A val))
                (targetLength
                 - gl.vertexSize
                     (SourceFunctionPaintPropertyBinder.vertexVector b))
      /\ gl.vertexSize
           (SourceFunctionPaintPropertyBinder.vertexVector (Counted.result r))
         = targetLength
      /\ SourceFunctionPaintPropertyBinder.function (Counted.result r)
         = SourceFunctionPaintPropertyBinder.function b
      /\ SourceFunctionPaintPropertyBinder.defaultValue (Counted.result r)
         = SourceFunctionPaintPropertyBinder.defaultValue b
      /\ SourceFunctionPaintPropertyBinder.vertexBuffer (Counted.result r)
         = SourceFunctionPaintPropertyBinder.vertexBuffer b)
  /\ (let Ps := [Scenario.property] in
      let binders :=
        PaintPropertyBinders.make Ps
          (PossiblyEvaluatedPropertyValue.Source Scenario.sizeTimesTwo, tt)
          0%R in
      let r :=
        bs <- PaintPropertyBinders.populateVertexVectors Ps binders
                (Scenario.mkFeature 3) 4 ;;
        PaintPropertyBinders.populateVertexVectors Ps bs
          (Scenario.mkFeature 5) 10 in
      Counted.count r = 2
      /\ PaintPropertyBinder.vertexStream (fst (Counted.result r))
         = map inl (repeat (gl.mkVertex 6%Z) 4 ++ repeat (gl.mkVertex 10%Z) 6))
  /\ (let b := SourceFunctionPaintPropertyBinder.make Scenario.A
                 Scenario.failing 1%Z in
      SourceFunctionPaintPropertyBinder.vertexVector
        (Counted.result
           (SourceFunctionPaintPropertyBinder.populateVertexVector
              b (Scenario.mkFeature 3) 2))
      = repeat (gl.mkVertex 1%Z) 2).
Proof.
  split; [|split].
  - intros Feature T A b feature targetLength Hlen r val.
    subst r. rewrite source_populate_result, source_populate_count.
    cbn [SourceFunctionPaintPropertyBinder.vertexVector
         SourceFunctionPaintPropertyBinder.function
         SourceFunctionPaintPropertyBinder.defaultValue
         SourceFunctionPaintPropertyBinder.vertexBuffer].
    repeat split.
    unfold gl.vertexSize in *. rewrite length_app, repeat_length. lia.
  - split; reflexivity.
  - reflexivity.
Qed.

Lemma source_populateVertexVector_replicates_witness :
  let b := SourceFunctionPaintPropertyBinder.make Scenario.A
             Scenario.sizeTimesTwo 1%Z in
  gl.vertexSize (SourceFunctionPaintPropertyBinder.vertexVector b) <= 4
  /\ SourceFunctionPaintPropertyBinder.vertexVector
       (Counted.result
          (SourceFunctionPaintPropertyBinder.populateVertexVector
             b (Scenario.mkFeature 3) 4))
     = repeat (gl.mkVertex 6%Z) 4.
Proof.
  assert (H : gl.vertexSize
                (SourceFunctionPaintPropertyBinder.vertexVector
                   (SourceFunctionPaintPropertyBinder.make Scenario.A
                      Scenario.sizeTimesTwo 1%Z)) <= 4)
    by (simpl; lia).
  split; [exact H|].
  exact (proj1 (proj2 (proj1 source_populateVertexVector_replicates
                         _ _ _ _ (Scenario.mkFeature 3) 4 H))).
Defined.

(** ** Composite-function binder: population *)

Section CompositePopulate.

Variables Feature T : Type.
Variable A : attributes.Attribute T.

Let binder : Type := CompositeFunctionPaintPropertyBinder.t Feature A.

Lemma composite_populate_result (b : binder) (feature : Feature)
    (length : nat) :
  Counted.result
    (CompositeFunctionPaintPropertyBinder.populateVertexVector b feature length)
  = let range :=
      Counted.result
        (CompositeFunction.evaluate
           (CompositeFunctionPaintPropertyBinder.function b)
           (snd (CompositeFunctionPaintPropertyBinder.coveringRanges b))
           feature (CompositeFunctionPaintPropertyBinder.defaultValue b)) in
    CompositeFunctionPaintPropertyBinder.mk
      (CompositeFunctionPaintPropertyBinder.function b)
      (CompositeFunctionPaintPropertyBinder.defaultValue b)
      (CompositeFunctionPaintPropertyBinder.coveringRanges b)
      (CompositeFunctionPaintPropertyBinder.vertexVector b
       ++ repeat
            (gl.mkVertex
               (attributes.zoomInterpolatedValue A
                  (Range.min range) (Range.max range)))
            (length
             - gl.vertexSize
                 (CompositeFunctionPaintPropertyBinder.vertexVector b)))
      (CompositeFunctionPaintPropertyBinder.vertexBuffer b).
Proof.
  unfold CompositeFunctionPaintPropertyBinder.populateVertexVector.
  cbn [CompositeFunction.evaluate Counted.call Counted.bind Counted.ret
       Counted.result fst].
  now rewrite emplace_loop_repeat.
Qed.

End CompositePopulate.

(** C3.  A [populateVertexVector(feature, targetLength)] call on a
    composite-function binder evaluates the function once, at the inner
    stops stored with the binder, which for a binder built by the
    constructor are the inner stops of the zoom pair bracketing the
    construction zoom and which population never changes.  The resulting
    (min, max) range is packed, both endpoints side by side, into one
    attribute value, and that value is appended until the stream has
    [targetLength] vertices.  The call takes no zoom: each stored vertex
    carries the two endpoint values themselves, not a blend of them.  With
    zoom stops [10, 15] whose inner stops map a feature to its size and to
    twice its size, a feature of size 3 yields vertices holding (3, 6). *)
Theorem composite_populateVertexVector_packs_range :
  (forall (Feature T : Type) (A : attributes.Attribute T)
          (b : CompositeFunctionPaintPropertyBinder.t Feature A)
          (feature : Feature) (targetLength : nat),
      let r :=
        CompositeFunctionPaintPropertyBinder.populateVertexVector
          b feature targetLength in
      let eval (s : CompositeFunction.InnerStops Feature T) :=
        match s feature with
        | Some v => v
        | None => CompositeFunctionPaintPropertyBinder.defaultValue b
        end in
      let stops :=
        snd (CompositeFunctionPaintPropertyBinder.coveringRanges b) in
      let minMax :=
        (attributes.value A (eval (Range.min stops)),
         attributes.value A (eval (Range.max stops))) in
      Counted.count r = 1
      /\ CompositeFunctionPaintPropertyBinder.vertexVector (Counted.result r)
         = CompositeFunctionPaintPropertyBinder.vertexVector b
           ++ repeat (gl.mkVertex minMax)
                (targetLength
                 - gl.vertexSize
                     (CompositeFunctionPaintPropertyBinder.vertexVector b))
      /\ gl.vertexSize
           (CompositeFunctionPaintPropertyBinder.vertexVector
              (Counted.result r))
         = Nat.max
             (gl.vertexSize
                (CompositeFunctionPaintPropertyBinder.vertexVector b))
             targetLength
      /\ CompositeFunctionPaintPropertyBinder.coveringRanges
           (Counted.result r)
         = CompositeFunctionPaintPropertyBinder.coveringRanges b
      /\ CompositeFunctionPaintPropertyBinder.function (Counted.result r)
         = CompositeFunctionPaintPropertyBinder.function b
      /\ CompositeFunctionPaintPropertyBinder.defaultValue (Counted.result r)
         = CompositeFunctionPaintPropertyBinder.defaultValue b
      /\ CompositeFunctionPaintPropertyBinder.vertexBuffer (Counted.result r)
         = CompositeFunctionPaintPropertyBinder.vertexBuffer b)
  /\ (forall (Feature T : Type) (A : attributes.Attribute T)
             (function : CompositeFunction.t Feature T) (zoom : R)
             (defaultValue : T),
         CompositeFunctionPaintPropertyBinder.coveringRanges
           (CompositeFunctionPaintPropertyBinder.make
              A function zoom defaultValue)
         = CompositeFunction.coveringRanges function zoom)
  /\ (forall base zoom : R,
         CompositeFunctionPaintPropertyBinder.vertexVector
           (Counted.result
              (CompositeFunctionPaintPropertyBinder.populateVertexVector
                 (CompositeFunctionPaintPropertyBinder.make Scenario.A
                    (Scenario.stops_10_15 base) zoom 1%Z)
                 (Scenario.mkFeature 3) 4))
         = repeat (gl.mkVertex (3%Z, 6%Z)) 4).
Proof.
  split; [|split].
  - intros Feature T A b feature targetLength r eval stops minMax.
    subst r. rewrite composite_populate_result.
    cbn [CompositeFunctionPaintPropertyBinder.vertexVector
         CompositeFunctionPaintPropertyBinder.function
         CompositeFunctionPaintPropertyBinder.defaultValue
         CompositeFunctionPaintPropertyBinder.coveringRanges
         CompositeFunctionPaintPropertyBinder.vertexBuffer].
    repeat split.
    unfold gl.vertexSize. rewrite length_app, repeat_length. lia.
  - reflexivity.
  - intros base zoom. reflexivity.
Qed.

(** ** The vertex stream only grows *)

Section AppendOnly.

Variable Feature : Type.
Variable P : PaintProperty.t.

(** One call extends the stream at its end. *)
Lemma populate_extends (binder : PaintPropertyBinder.t Feature P)
    (feature : Feature) (length : nat) :
  exists suffix,
    PaintPropertyBinder.vertexStream
      (Counted.result
         (PaintPropertyBinder.populateVertexVector binder feature length))
    = PaintPropertyBinder.vertexStream binder ++ suffix.
Proof.
  destruct binder as [b|b|b].
  - exists []. reflexivity.
  - eexists.
    change (Counted.result
              (PaintPropertyBinder.populateVertexVector
                 (PaintPropertyBinder.SourceFunction b) feature length))
      with (PaintPropertyBinder.SourceFunction
              (Counted.result
                 (SourceFunctionPaintPropertyBinder.populateVertexVector
                    b feature length))).
    rewrite source_populate_result. cbn [PaintPropertyBinder.vertexStream
      SourceFunctionPaintPropertyBinder.vertexVector].
    rewrite map_app. reflexivity.
  - eexists.
    change (Counted.result
              (PaintPropertyBinder.populateVertexVector
                 (PaintPropertyBinder.CompositeFunction b) feature length))
      with (PaintPropertyBinder.CompositeFunction
              (Counted.result
                 (CompositeFunctionPaintPropertyBinder.populateVertexVector
                    b feature length))).
    rewrite composite_populate_result. cbn [PaintPropertyBinder.vertexStream
      CompositeFunctionPaintPropertyBinder.vertexVector].
    rewrite map_app. reflexivity.
Qed.

(** So does any sequence of calls. *)
Lemma populateSequence_extends (calls : list (Feature * nat))
    (binder : PaintPropertyBinder.t Feature P) :
  exists suffix,
    PaintPropertyBinder.vertexStream
      (PaintPropertyBinder.populateSequence binder calls)
    = PaintPropertyBinder.vertexStream binder ++ suffix.
Proof.
  revert binder.
  induction calls as [|[feature length] calls IH]; intros binder.
  - exists []. simpl. now rewrite app_nil_r.
  - destruct (populate_extends binder feature length) as [s1 H1].
    destruct (IH (Counted.result
                    (PaintPropertyBinder.populateVertexVector
                       binder feature length))) as [s2 H2].
    exists (s1 ++ s2).
    unfold PaintPropertyBinder.populateSequence in *. simpl.
    rewrite H2, H1. now rewrite app_assoc.
Qed.

(** A call whose target length the stream already has changes nothing. *)
Lemma populate_short (binder : PaintPropertyBinder.t Feature P)
    (feature : Feature) (targetLength : nat) :
  targetLength <= length (PaintPropertyBinder.vertexStream binder) ->
  Counted.result
    (PaintPropertyBinder.populateVertexVector binder feature targetLength)
  = binder.
Proof.
  intros Hlen. destruct binder as [b|b|b].
  - reflexivity.
  - change (PaintPropertyBinder.SourceFunction
              (Counted.result
                 (SourceFunctionPaintPropertyBinder.populateVertexVector
                    b feature targetLength))
            = PaintPropertyBinder.SourceFunction b).
    rewrite source_populate_result.
    cbn [PaintPropertyBinder.vertexStream] in Hlen.
    rewrite length_map in Hlen. unfold gl.vertexSize.
    replace (targetLength - _) with 0 by lia.
    simpl. rewrite app_nil_r. now destruct b.
  - change (PaintPropertyBinder.CompositeFunction
              (Counted.result
                 (CompositeFunctionPaintPropertyBinder.populateVertexVector
                    b feature targetLength))
            = PaintPropertyBinder.CompositeFunction b).
    rewrite composite_populate_result.
    cbn [PaintPropertyBinder.vertexStream] in Hlen.
    rewrite length_map in Hlen. unfold gl.vertexSize.
    replace (targetLength - _) with 0 by lia.
    simpl. rewrite app_nil_r. now destruct b.
Qed.

End AppendOnly.

(** C8.  Take any binder, any sequence of [populateVertexVector] calls (in
    particular one with non-decreasing target lengths) and any later
    sequence of such calls.  The stream after the later calls is at least
    as long as after the earlier ones, and every vertex the stream held
    after the earlier calls is still there, at the same position and with
    the same value.  A call whose target length does not exceed the
    current vertex count leaves the binder, and so its stream, exactly as
    it was. *)
Theorem populateVertexVector_append_only :
  forall (Feature : Type) (P : PaintProperty.t)
         (binder : PaintPropertyBinder.t Feature P),
    (forall earlierCalls laterCalls : list (Feature * nat),
        let earlier :=
          PaintPropertyBinder.populateSequence binder earlierCalls in
        let later :=
          PaintPropertyBinder.populateSequence earlier laterCalls in
        length (PaintPropertyBinder.vertexStream earlier)
        <= length (PaintPropertyBinder.vertexStream later)
        /\ (forall (i : nat) (vertex : PaintPropertyBinder.VertexRecord P),
               nth_error (PaintPropertyBinder.vertexStream earlier) i
               = Some vertex ->
               nth_error (PaintPropertyBinder.vertexStream later) i
               = Some vertex))
    /\ (forall (feature : Feature) (targetLength : nat),
           targetLength <= length (PaintPropertyBinder.vertexStream binder) ->
           Counted.result
             (PaintPropertyBinder.populateVertexVector
                binder feature targetLength)
           = binder).
Proof.
  intros Feature P binder. split.
  - intros earlierCalls laterCalls earlier later.
    destruct (populateSequence_extends _ _ laterCalls earlier) as [suffix Hs].
    fold later in Hs. rewrite Hs. split.
    + rewrite length_app. lia.
    + intros i vertex Hi. rewrite nth_error_app1; [exact Hi|].
      apply nth_error_Some. congruence.
  - intros feature targetLength. apply populate_short.
Qed.

Lemma populateVertexVector_append_only_witness :
  let binder :=
    PaintPropertyBinder.populateSequence
      (PaintPropertyBinder.make (P := Scenario.property)
         (PossiblyEvaluatedPropertyValue.Source Scenario.sizeTimesTwo) 0%R)
      [(Scenario.mkFeature 3, 4)] in
  (2 <= length (PaintPropertyBinder.vertexStream binder)
   /\ Counted.result
        (PaintPropertyBinder.populateVertexVector
           binder (Scenario.mkFeature 5) 2)
      = binder)
  /\ (nth_error (PaintPropertyBinder.vertexStream binder) 3
      = Some (inl (gl.mkVertex 6%Z))
      /\ nth_error
           (PaintPropertyBinder.vertexStream
              (PaintPropertyBinder.populateSequence binder
                 [(Scenario.mkFeature 5, 10)])) 3
         = Some (inl (gl.mkVertex 6%Z))).
Proof.
  intros binder.
  assert (Hlen : 2 <= length (PaintPropertyBinder.vertexStream binder))
    by (simpl; lia).
  assert (Hnth : nth_error (PaintPropertyBinder.vertexStream binder) 3
                 = Some (inl (gl.mkVertex 6%Z)))
    by reflexivity.
  split; split.
  - exact Hlen.
  - exact (proj2 (populateVertexVector_append_only _ _ binder)
             (Scenario.mkFeature 5) 2 Hlen).
  - exact Hnth.
  - exact (proj2 (proj1 (populateVertexVector_append_only _ _
                           (PaintPropertyBinder.make (P := Scenario.property)
                              (PossiblyEvaluatedPropertyValue.Source
                                 Scenario.sizeTimesTwo) 0%R))
                    [(Scenario.mkFeature 3, 4)] [(Scenario.mkFeature 5, 10)])
             3 (inl (gl.mkVertex 6%Z)) Hnth).
Defined.

(** ** Attribute bindings *)

(** C6.  On a source-function binder and on a composite-function binder,
    [attributeBinding(currentValue)] returns a constant (broadcast) binding
    whenever [currentValue] is a constant at the time of the call: of the
    constant's attribute value for the source binder, of the pair (value,
    value) for the composite binder.  Otherwise it returns the binding that
    refers to the uploaded buffer.  The test is on the value passed to the
    call: a binder that was built from a function, and so holds a vertex
    stream, still answers a constant current value with a broadcast. *)
Theorem attributeBinding_branches_on_current_value :
  forall (Feature T : Type) (A : attributes.Attribute T),
    (forall (b : SourceFunctionPaintPropertyBinder.t Feature A) (c : T),
        SourceFunctionPaintPropertyBinder.attributeBinding b
          (PossiblyEvaluatedPropertyValue.Constant c)
        = Some (gl.ConstantAttributeBinding (attributes.value A c)))
    /\ (forall (b : SourceFunctionPaintPropertyBinder.t Feature A)
               (currentValue : PossiblyEvaluatedPropertyValue.t Feature T)
               (buffer : gl.VertexBuffer
                           (SourceFunctionPaintPropertyBinder.Vertex A)),
           PossiblyEvaluatedPropertyValue.isConstant currentValue = false ->
           SourceFunctionPaintPropertyBinder.vertexBuffer b = Some buffer ->
           SourceFunctionPaintPropertyBinder.attributeBinding b currentValue
           = Some (gl.VariableAttributeBinding buffer))
    /\ (forall (b : CompositeFunctionPaintPropertyBinder.t Feature A) (c : T),
           CompositeFunctionPaintPropertyBinder.attributeBinding b
             (PossiblyEvaluatedPropertyValue.Constant c)
           = Some (gl.ConstantAttributeBinding
                     (attributes.value A c, attributes.value A c)))
    /\ (forall (b : CompositeFunctionPaintPropertyBinder.t Feature A)
               (currentValue : PossiblyEvaluatedPropertyValue.t Feature T)
               (buffer : gl.VertexBuffer
                           (CompositeFunctionPaintPropertyBinder.Vertex A)),
           PossiblyEvaluatedPropertyValue.isConstant currentValue = false ->
           CompositeFunctionPaintPropertyBinder.vertexBuffer b = Some buffer ->
           CompositeFunctionPaintPropertyBinder.attributeBinding b currentValue
           = Some (gl.VariableAttributeBinding buffer))
    /\ (forall (function : SourceFunction.t Feature T) (zoom : R)
               (defaultValue c : T),
           PaintPropertyBinder.attributeBinding
             (PaintPropertyBinder.make (P := PaintProperty.mk A defaultValue)
                (PossiblyEvaluatedPropertyValue.Source function) zoom)
             (PossiblyEvaluatedPropertyValue.Constant c)
           = Some (inl (gl.ConstantAttributeBinding (attributes.value A c))))
    /\ (forall (function : CompositeFunction.t Feature T) (zoom : R)
               (defaultValue c : T),
           PaintPropertyBinder.attributeBinding
             (PaintPropertyBinder.make (P := PaintProperty.mk A defaultValue)
                (PossiblyEvaluatedPropertyValue.Composite function) zoom)
             (PossiblyEvaluatedPropertyValue.Constant c)
           = Some (inr (gl.ConstantAttributeBinding
                          (attributes.value A c, attributes.value A c)))).
Proof.
  intros Feature T A. repeat split.
  - intros b currentValue buffer Hconst Hbuffer.
    unfold SourceFunctionPaintPropertyBinder.attributeBinding.
    now rewrite Hconst, Hbuffer.
  - intros b currentValue buffer Hconst Hbuffer.
    unfold CompositeFunctionPaintPropertyBinder.attributeBinding.
    now rewrite Hconst, Hbuffer.
Qed.

Lemma attributeBinding_branches_on_current_value_witness :
  let buffer := gl.mkVertexBuffer [gl.mkVertex 6%Z] in
  let b :=
    SourceFunctionPaintPropertyBinder.mk (A := Scenario.A)
      Scenario.sizeTimesTwo 1%Z [] (Some buffer) in
  let currentValue :=
    PossiblyEvaluatedPropertyValue.Source Scenario.sizeTimesTwo in
  PossiblyEvaluatedPropertyValue.isConstant currentValue = false
  /\ SourceFunctionPaintPropertyBinder.vertexBuffer b = Some buffer
  /\ SourceFunctionPaintPropertyBinder.attributeBinding b currentValue
     = Some (gl.VariableAttributeBinding buffer).
Proof.
  intros buffer b currentValue.
  assert (Hconst :
            PossiblyEvaluatedPropertyValue.isConstant currentValue = false)
    by reflexivity.
  assert (Hbuffer :
            SourceFunctionPaintPropertyBinder.vertexBuffer b = Some buffer)
    by reflexivity.
  split; [exact Hconst|split; [exact Hbuffer|]].
  exact (proj1 (proj2 (attributeBinding_branches_on_current_value
                         Scenario.Feature Z Scenario.A))
           b currentValue buffer Hconst Hbuffer).
Defined.

(** C7.  On a constant binder, [attributeBinding(currentValue)] returns a
    constant (broadcast) binding: of [currentValue]'s constant when
    [currentValue] is a constant, of the constant captured at construction
    otherwise.  It never returns a buffer reference, and no feature can
    change that, since [populateVertexVector] leaves the binder as it
    is. *)
Theorem constant_attributeBinding_broadcasts :
  forall (Feature T : Type) (A : attributes.Attribute T)
         (b : ConstantPaintPropertyBinder.t T),
    (forall c : T,
        ConstantPaintPropertyBinder.attributeBinding A b
          (PossiblyEvaluatedPropertyValue.Constant (Feature := Feature) c)
        = gl.ConstantAttributeBinding (attributes.value A c))
    /\ (forall currentValue : PossiblyEvaluatedPropertyValue.t Feature T,
           PossiblyEvaluatedPropertyValue.isConstant currentValue = false ->
           ConstantPaintPropertyBinder.attributeBinding A b currentValue
           = gl.ConstantAttributeBinding
               (attributes.value A (ConstantPaintPropertyBinder.constant b)))
    /\ (forall (currentValue : PossiblyEvaluatedPropertyValue.t Feature T)
               (buffer : gl.VertexBuffer
                           (gl.Vertex
                              (ConstantPaintPropertyBinder.AttributeValue A))),
           ConstantPaintPropertyBinder.attributeBinding A b currentValue
           <> gl.VariableAttributeBinding buffer)
    /\ (forall (feature : Feature) (length : nat),
           ConstantPaintPropertyBinder.populateVertexVector b feature length
           = Counted.ret b).
Proof.
  intros Feature T A b. repeat split.
  - intros currentValue Hconst.
    destruct currentValue; [discriminate Hconst| |]; reflexivity.
  - intros currentValue buffer. discriminate.
Qed.

Lemma constant_attributeBinding_broadcasts_witness :
  let b := ConstantPaintPropertyBinder.make 7%Z in
  let currentValue :=
    PossiblyEvaluatedPropertyValue.Source Scenario.sizeTimesTwo in
  PossiblyEvaluatedPropertyValue.isConstant currentValue = false
  /\ ConstantPaintPropertyBinder.attributeBinding Scenario.A b currentValue
     = gl.ConstantAttributeBinding 7%Z.
Proof.
  intros b currentValue.
  assert (Hconst :
            PossiblyEvaluatedPropertyValue.isConstant currentValue = false)
    by reflexivity.
  split; [exact Hconst|].
  exact (proj1 (proj2 (constant_attributeBinding_broadcasts
                         Scenario.Feature Z Scenario.A b))
           currentValue Hconst).
Defined.

(** C9.  On a source-function binder and on a composite-function binder,
    a call of [attributeBinding] with a constant current value is defined
    and returns the broadcast binding whatever the binder's buffer handle
    is, also on a binder fresh from its constructor, before any population
    or upload.  Only a call with a non-constant current value reads the
    handle: it is undefined while the handle is empty and returns the
    binding of the handle's buffer otherwise. *)
Theorem constant_branch_never_reads_buffer :
  forall (Feature T : Type) (A : attributes.Attribute T),
    (forall (b b' : SourceFunctionPaintPropertyBinder.t Feature A) (c : T),
        SourceFunctionPaintPropertyBinder.attributeBinding b
          (PossiblyEvaluatedPropertyValue.Constant c)
        = SourceFunctionPaintPropertyBinder.attributeBinding b'
            (PossiblyEvaluatedPropertyValue.Constant c))
    /\ (forall (function : SourceFunction.t Feature T) (defaultValue c : T),
           SourceFunctionPaintPropertyBinder.attributeBinding
             (SourceFunctionPaintPropertyBinder.make A function defaultValue)
             (PossiblyEvaluatedPropertyValue.Constant c)
           = Some (gl.ConstantAttributeBinding (attributes.value A c)))
    /\ (forall (b : SourceFunctionPaintPropertyBinder.t Feature A)
               (currentValue : PossiblyEvaluatedPropertyValue.t Feature T),
           PossiblyEvaluatedPropertyValue.isConstant currentValue = false ->
           SourceFunctionPaintPropertyBinder.attributeBinding b currentValue
           = option_map (@gl.VariableAttributeBinding _ _)
               (SourceFunctionPaintPropertyBinder.vertexBuffer b))
    /\ (forall (b b' : CompositeFunctionPaintPropertyBinder.t Feature A)
               (c : T),
           CompositeFunctionPaintPropertyBinder.attributeBinding b
             (PossiblyEvaluatedPropertyValue.Constant c)
           = CompositeFunctionPaintPropertyBinder.attributeBinding b'
               (PossiblyEvaluatedPropertyValue.Constant c))
    /\ (forall (function : CompositeFunction.t Feature T) (zoom : R)
               (defaultValue c : T),
           CompositeFunctionPaintPropertyBinder.attributeBinding
             (CompositeFunctionPaintPropertyBinder.make
                A function zoom defaultValue)
             (PossiblyEvaluatedPropertyValue.Constant c)
           = Some (gl.ConstantAttributeBinding
                     (attributes.value A c, attributes.value A c)))
    /\ (forall (b : CompositeFunctionPaintPropertyBinder.t Feature A)
               (currentValue : PossiblyEvaluatedPropertyValue.t Feature T),
           PossiblyEvaluatedPropertyValue.isConstant currentValue = false ->
           CompositeFunctionPaintPropertyBinder.attributeBinding b currentValue
           = option_map (@gl.VariableAttributeBinding _ _)
               (CompositeFunctionPaintPropertyBinder.vertexBuffer b)).
Proof.
  intros Feature T A. repeat split.
  - intros b currentValue Hconst.
    unfold SourceFunctionPaintPropertyBinder.attributeBinding.
    rewrite Hconst.
    now destruct (SourceFunctionPaintPropertyBinder.vertexBuffer b).
  - intros b currentValue Hconst.
    unfold CompositeFunctionPaintPropertyBinder.attributeBinding.
    rewrite Hconst.
    now destruct (CompositeFunctionPaintPropertyBinder.vertexBuffer b).
Qed.

Lemma constant_branch_never_reads_buffer_witness :
  let b :=
    SourceFunctionPaintPropertyBinder.make Scenario.A
      Scenario.sizeTimesTwo 1%Z in
  let currentValue :=
    PossiblyEvaluatedPropertyValue.Source Scenario.sizeTimesTwo in
  PossiblyEvaluatedPropertyValue.isConstant currentValue = false
  /\ SourceFunctionPaintPropertyBinder.attributeBinding b currentValue = None.
Proof.
  intros b currentValue.
  assert (Hconst :
            PossiblyEvaluatedPropertyValue.isConstant currentValue = false)
    by reflexivity.
  split; [exact Hconst|].
  exact (proj1 (proj2 (proj2 (constant_branch_never_reads_buffer
                                Scenario.Feature Z Scenario.A)))
           b currentValue Hconst).
Defined.

(** ** The [const] methods leave the object as it is *)

Section ConstMethods.

Variable Feature : Type.

(** Run on a binder, [attributeBinding] returns what the function
    [PaintPropertyBinder.attributeBinding] gives, is undefined when that
    is, and leaves the binder it ran on. *)
Lemma attributeBinding_method (P : PaintProperty.t)
    (binder : PaintPropertyBinder.t Feature P)
    (currentValue : PaintPropertyBinder.PropertyValue Feature P) :
  PaintPropertyBinderMethods.attributeBinding currentValue binder
  = option_map (fun r => (r, binder))
      (PaintPropertyBinder.attributeBinding binder currentValue).
Proof.
  destruct binder as [b|b|b];
    unfold PaintPropertyBinderMethods.attributeBinding, Method.alternative,
      Method.bind.
  - reflexivity.
  - unfold SourceFunctionPaintPropertyBinderMethods.attributeBinding.
    cbn [PaintPropertyBinder.attributeBinding].
    unfold SourceFunctionPaintPropertyBinder.attributeBinding.
    destruct currentValue; cbn [PossiblyEvaluatedPropertyValue.isConstant];
      try reflexivity;
      unfold Method.bind, Method.read, Method.deref, Method.ret;
      now destruct (SourceFunctionPaintPropertyBinder.vertexBuffer b).
  - unfold CompositeFunctionPaintPropertyBinderMethods.attributeBinding.
    cbn [PaintPropertyBinder.attributeBinding].
    unfold CompositeFunctionPaintPropertyBinder.attributeBinding.
    destruct currentValue; cbn [PossiblyEvaluatedPropertyValue.isConstant];
      try reflexivity;
      unfold Method.bind, Method.read, Method.deref, Method.ret;
      now destruct (CompositeFunctionPaintPropertyBinder.vertexBuffer b).
Qed.

Lemma interpolationUniformValue_method (P : PaintProperty.t)
    (binder : PaintPropertyBinder.t Feature P) (currentZoom : R) :
  PaintPropertyBinderMethods.interpolationUniformValue currentZoom binder
  = Some (PaintPropertyBinder.interpolationUniformValue binder currentZoom,
          binder).
Proof. now destruct binder. Qed.

Lemma attributeBindings_method (Ps : list PaintProperty.t)
    (binders : PaintPropertyBinders.Binders Feature Ps)
    (currentProperties : PaintPropertyBinders.EvaluatedProperties Feature Ps) :
  PaintPropertyBindersMethods.attributeBindings Ps currentProperties binders
  = option_map (fun r => (r, binders))
      (PaintPropertyBinders.attributeBindings Ps binders currentProperties).
Proof.
  induction Ps as [|P Ps IH].
  - now destruct binders.
  - destruct binders as [b bs], currentProperties as [c cs].
    cbn [PaintPropertyBindersMethods.attributeBindings
         PaintPropertyBinders.attributeBindings fst snd].
    unfold Method.bind, Method.member. cbn [fst snd].
    rewrite attributeBinding_method.
    destruct (PaintPropertyBinder.attributeBinding b c) as [r|];
      [|reflexivity].
    cbn [option_map fst snd]. rewrite IH.
    now destruct (PaintPropertyBinders.attributeBindings Ps bs cs).
Qed.

Lemma uniformValues_method (Ps : list PaintProperty.t)
    (binders : PaintPropertyBinders.Binders Feature Ps) (currentZoom : R) :
  PaintPropertyBindersMethods.uniformValues Ps currentZoom binders
  = Some (PaintPropertyBinders.uniformValues Ps binders currentZoom, binders).
Proof.
  induction Ps as [|P Ps IH].
  - now destruct binders.
  - destruct binders as [b bs].
    cbn [PaintPropertyBindersMethods.uniformValues
         PaintPropertyBinders.uniformValues fst snd].
    unfold Method.bind, Method.member. cbn [fst snd].
    rewrite interpolationUniformValue_method. cbn [fst snd].
    now rewrite IH.
Qed.

(** A [const] call, when defined, leaves the state it ran on. *)
Lemma binder_call_const (P : PaintProperty.t)
    (c : PaintPropertyBinder.Call Feature P)
    (binder binder' : PaintPropertyBinder.t Feature P)
    (r : PaintPropertyBinder.Return P) :
  PaintPropertyBinder.isConst c = true ->
  PaintPropertyBinderMethods.call c binder = Some (r, binder') ->
  binder' = binder.
Proof.
  destruct c as [feature length|context|currentValue|currentZoom];
    try discriminate; intros _;
    unfold PaintPropertyBinderMethods.call, Method.bind, Method.ret.
  - rewrite attributeBinding_method.
    destruct (PaintPropertyBinder.attributeBinding binder currentValue);
      simpl; congruence.
  - rewrite interpolationUniformValue_method. congruence.
Qed.

Lemma binders_call_const (Ps : list PaintProperty.t)
    (c : PaintPropertyBinders.Call Feature Ps)
    (binders binders' : PaintPropertyBinders.Binders Feature Ps)
    (r : PaintPropertyBinders.Return Ps) :
  PaintPropertyBinders.isConst c = true ->
  PaintPropertyBindersMethods.call c binders = Some (r, binders') ->
  binders' = binders.
Proof.
  destruct c as [feature length|context|currentProperties|currentZoom];
    try discriminate; intros _;
    unfold PaintPropertyBindersMethods.call, Method.bind, Method.ret.
  - rewrite attributeBindings_method.
    destruct (PaintPropertyBinders.attributeBindings Ps binders
                currentProperties);
      simpl; congruence.
  - rewrite uniformValues_method. congruence.
Qed.

(** Any number of [const] calls: the state at the end is the state at the
    start, and each call returned what it returns when made alone on that
    state. *)
Lemma binder_run_const (P : PaintProperty.t)
    (cs : list (PaintPropertyBinder.Call Feature P))
    (binder : PaintPropertyBinder.t Feature P) :
  forallb (@PaintPropertyBinder.isConst Feature P) cs = true ->
  forall rs binder',
    PaintPropertyBinderMethods.run cs binder = Some (rs, binder') ->
    binder' = binder
    /\ Forall2
         (fun c r =>
            PaintPropertyBinderMethods.call c binder = Some (r, binder))
         cs rs.
Proof.
  induction cs as [|c cs IH]; intros Hcs rs binder'.
  - intros [= <- <-]. split; constructor.
  - cbn [forallb] in Hcs. apply andb_prop in Hcs. destruct Hcs as [Hc Hcs].
    cbn [PaintPropertyBinderMethods.run]. unfold Method.bind at 1.
    destruct (PaintPropertyBinderMethods.call c binder) as [[r b1]|] eqn:Hcall;
      [|discriminate].
    pose proof (binder_call_const P c binder b1 r Hc Hcall) as ->.
    unfold Method.bind at 1.
    destruct (PaintPropertyBinderMethods.run cs binder) as [[rs' b2]|] eqn:Hrun;
      [|discriminate].
    destruct (IH Hcs rs' b2 eq_refl) as [-> Hall].
    intros [= <- <-]. split; [reflexivity|]. now constructor.
Qed.

Lemma binders_run_const (Ps : list PaintProperty.t)
    (cs : list (PaintPropertyBinders.Call Feature Ps))
    (binders : PaintPropertyBinders.Binders Feature Ps) :
  forallb (@PaintPropertyBinders.isConst Feature Ps) cs = true ->
  forall rs binders',
    PaintPropertyBindersMethods.run cs binders = Some (rs, binders') ->
    binders' = binders
    /\ Forall2
         (fun c r =>
            PaintPropertyBindersMethods.call c binders = Some (r, binders))
         cs rs.
Proof.
  induction cs as [|c cs IH]; intros Hcs rs binders'.
  - intros [= <- <-]. split; constructor.
  - cbn [forallb] in Hcs. apply andb_prop in Hcs. destruct Hcs as [Hc Hcs].
    cbn [PaintPropertyBindersMethods.run]. unfold Method.bind at 1.
    destruct (PaintPropertyBindersMethods.call c binders) as [[r b1]|]
      eqn:Hcall; [|discriminate].
    pose proof (binders_call_const Ps c binders b1 r Hc Hcall) as ->.
    unfold Method.bind at 1.
    destruct (PaintPropertyBindersMethods.run cs binders) as [[rs' b2]|]
      eqn:Hrun; [|discriminate].
    destruct (IH Hcs rs' b2 eq_refl) as [-> Hall].
    intros [= <- <-]. split; [reflexivity|]. now constructor.
Qed.

End ConstMethods.

(** The monad does tell a method that assigns from one that does not: an
    [upload] call on a source-function binder fresh from its constructor
    leaves another binder than it found. *)
Lemma upload_call_changes_state :
  let binder :=
    PaintPropertyBinder.make (P := Scenario.property)
      (PossiblyEvaluatedPropertyValue.Source Scenario.sizeTimesTwo) 0%R in
  exists r binder',
    PaintPropertyBinderMethods.call
      (PaintPropertyBinder.CallUpload Scenario.Feature Scenario.property
         gl.context)
      binder
    = Some (r, binder')
    /\ binder' <> binder.
Proof.
  intros binder. eexists. eexists. split; [reflexivity|]. discriminate.
Qed.

(** C10.  The bodies of [attributeBinding] and [interpolationUniformValue]
    (the interpolation factor) of a binder, of whichever variant, and of
    [attributeBindings] and [uniformValues] of the binders of a layer, run
    as computations on the object's members, only read members: each
    returns the value of the corresponding function of the state (and is
    undefined when that is) and leaves the state it ran on, with its
    constant or function, default value, covering ranges, vertex stream
    and buffer handle.  So after any number of such calls the state is the
    one before them, and every call of the sequence returned what it
    returns when made alone on that state: equal calls return equal
    results. *)
Theorem const_methods_leave_state_unchanged :
  forall Feature : Type,
    (forall (P : PaintProperty.t) (binder : PaintPropertyBinder.t Feature P)
            (currentValue : PaintPropertyBinder.PropertyValue Feature P),
        PaintPropertyBinderMethods.attributeBinding currentValue binder
        = option_map (fun r => (r, binder))
            (PaintPropertyBinder.attributeBinding binder currentValue))
    /\ (forall (P : PaintProperty.t)
               (binder : PaintPropertyBinder.t Feature P) (currentZoom : R),
           PaintPropertyBinderMethods.interpolationUniformValue
             currentZoom binder
           = Some (PaintPropertyBinder.interpolationUniformValue
                     binder currentZoom,
                   binder))
    /\ (forall (Ps : list PaintProperty.t)
               (binders : PaintPropertyBinders.Binders Feature Ps)
               (currentProperties :
                  PaintPropertyBinders.EvaluatedProperties Feature Ps),
           PaintPropertyBindersMethods.attributeBindings
             Ps currentProperties binders
           = option_map (fun r => (r, binders))
               (PaintPropertyBinders.attributeBindings
                  Ps binders currentProperties))
    /\ (forall (Ps : list PaintProperty.t)
               (binders : PaintPropertyBinders.Binders Feature Ps)
               (currentZoom : R),
           PaintPropertyBindersMethods.uniformValues Ps currentZoom binders
           = Some (PaintPropertyBinders.uniformValues Ps binders currentZoom,
                   binders))
    /\ (forall (P : PaintProperty.t)
               (cs : list (PaintPropertyBinder.Call Feature P))
               (binder binder' : PaintPropertyBinder.t Feature P)
               (rs : list (PaintPropertyBinder.Return P)),
           forallb (@PaintPropertyBinder.isConst Feature P) cs = true ->
           PaintPropertyBinderMethods.run cs binder = Some (rs, binder') ->
           binder' = binder
           /\ Forall2
                (fun c r =>
                   PaintPropertyBinderMethods.call c binder
                   = Some (r, binder))
                cs rs)
    /\ (forall (Ps : list PaintProperty.t)
               (cs : list (PaintPropertyBinders.Call Feature Ps))
               (binders binders' : PaintPropertyBinders.Binders Feature Ps)
               (rs : list (PaintPropertyBinders.Return Ps)),
           forallb (@PaintPropertyBinders.isConst Feature Ps) cs = true ->
           PaintPropertyBindersMethods.run cs binders = Some (rs, binders') ->
           binders' = binders
           /\ Forall2
                (fun c r =>
                   PaintPropertyBindersMethods.call c binders
                   = Some (r, binders))
                cs rs).
Proof.
  intros Feature. split; [|split; [|split; [|split; [|split]]]].
  - apply attributeBinding_method.
  - apply interpolationUniformValue_method.
  - apply attributeBindings_method.
  - apply uniformValues_method.
  - intros P cs binder binder' rs Hcs Hrun.
    exact (binder_run_const Feature P cs binder Hcs rs binder' Hrun).
  - intros Ps cs binders binders' rs Hcs Hrun.
    exact (binders_run_const Feature Ps cs binders Hcs rs binders' Hrun).
Qed.

Lemma const_methods_leave_state_unchanged_witness :
  let binder :=
    PaintPropertyBinder.upload
      (PaintPropertyBinder.populateSequence
         (PaintPropertyBinder.make (P := Scenario.property)
            (PossiblyEvaluatedPropertyValue.Composite (Scenario.stops_10_15 1))
            12%R)
         [(Scenario.mkFeature 3, 2)])
      gl.context in
  let cs :=
    [@PaintPropertyBinder.CallAttributeBinding Scenario.Feature
       Scenario.property (PossiblyEvaluatedPropertyValue.Constant 5%Z);
     @PaintPropertyBinder.CallAttributeBinding Scenario.Feature
       Scenario.property
       (PossiblyEvaluatedPropertyValue.Composite (Scenario.stops_10_15 1));
     @PaintPropertyBinder.CallAttributeBinding Scenario.Feature
       Scenario.property (PossiblyEvaluatedPropertyValue.Constant 5%Z)] in
  let broadcast :=
    PaintPropertyBinder.ReturnAttributeBinding (P := Scenario.property)
      (Some (inr (gl.ConstantAttributeBinding (5%Z, 5%Z)))) in
  let buffer :=
    PaintPropertyBinder.ReturnAttributeBinding (P := Scenario.property)
      (Some (inr (gl.VariableAttributeBinding
                    (gl.mkVertexBuffer
                       (repeat (gl.mkVertex (3%Z, 6%Z)) 2))))) in
  let rs := [broadcast; buffer; broadcast] in
  forallb (@PaintPropertyBinder.isConst Scenario.Feature Scenario.property) cs
  = true
  /\ PaintPropertyBinderMethods.run cs binder = Some (rs, binder)
  /\ Forall2
       (fun c r =>
          PaintPropertyBinderMethods.call c binder = Some (r, binder))
       cs rs.
Proof.
  intros binder cs broadcast buffer rs.
  assert (Hcs : forallb (@PaintPropertyBinder.isConst Scenario.Feature
                           Scenario.property) cs = true)
    by reflexivity.
  assert (Hrun : PaintPropertyBinderMethods.run cs binder = Some (rs, binder))
    by reflexivity.
  split; [exact Hcs|split; [exact Hrun|]].
  exact (proj2 (proj1 (proj2 (proj2 (proj2 (proj2
           (const_methods_leave_state_unchanged Scenario.Feature)))))
                  Scenario.property cs binder binder rs Hcs Hrun)).
Defined.

(** ** The interpolation factor *)

Local Open Scope R_scope.

(** With base 1 the helper is the straight line through 0 at [min] and 1
    at [max]. *)
Lemma interpolationFactor_base_one (range : Range.t R) (z : R) :
  util.interpolationFactor 1 range z
  = (z - Range.min range) / (Range.max range - Range.min range).
Proof.
  unfold util.interpolationFactor.
  destruct (Req_dec_T 1 1) as [_|Hne]; [reflexivity|].
  now contradiction Hne.
Qed.

Lemma linear_factor_monotone (lower upper z1 z2 : R) :
  lower < upper -> z1 <= z2 ->
  (z1 - lower) / (upper - lower) <= (z2 - lower) / (upper - lower).
Proof.
  intros Hrange Hz. unfold Rdiv.
  apply Rmult_le_compat_r; [|lra].
  left. apply Rinv_0_lt_compat. lra.
Qed.

Lemma linear_factor_strictly_monotone (lower upper z1 z2 : R) :
  lower < upper -> z1 < z2 ->
  (z1 - lower) / (upper - lower) < (z2 - lower) / (upper - lower).
Proof.
  intros Hrange Hz. unfold Rdiv.
  apply Rmult_lt_compat_r; [|lra].
  apply Rinv_0_lt_compat. lra.
Qed.

Lemma linear_factor_lower (lower upper : R) :
  (lower - lower) / (upper - lower) = 0.
Proof. unfold Rdiv. replace (lower - lower) with 0 by lra. apply Rmult_0_l. Qed.

Lemma linear_factor_upper (lower upper : R) :
  lower < upper -> (upper - lower) / (upper - lower) = 1.
Proof. intros Hrange. field. lra. Qed.

Section CompositeFactor.

Variables Feature T : Type.
Variable A : attributes.Attribute T.

Lemma composite_factor_linear
    (b : CompositeFunctionPaintPropertyBinder.t Feature A) (z : R) :
  CompositeFunctionPaintPropertyBinder.interpolationFactor b z
  = (z - Range.min (fst (CompositeFunctionPaintPropertyBinder.coveringRanges b)))
    / (Range.max (fst (CompositeFunctionPaintPropertyBinder.coveringRanges b))
       - Range.min
           (fst (CompositeFunctionPaintPropertyBinder.coveringRanges b))).
Proof.
  unfold CompositeFunctionPaintPropertyBinder.interpolationFactor.
  apply interpolationFactor_base_one.
Qed.

End CompositeFactor.

(** Exposes the zoom range a scenario binder stored at construction. *)
Ltac stored_range :=
  cbn [CompositeFunctionPaintPropertyBinder.make
       CompositeFunctionPaintPropertyBinder.coveringRanges
       CompositeFunction.coveringRanges CompositeFunction.base
       Scenario.stops_10_15 Scenario.stops_10_15_20
       fst Range.min Range.max].

(** The exponential curve of base 2 over the range [10, 15], one zoom level
    above the lower stop. *)
Lemma exponential_factor_base_two :
  util.interpolationFactor 2 (Range.mk 10 15) 11 = 1 / 31.
Proof.
  unfold util.interpolationFactor. cbn [Range.min Range.max].
  destruct (Req_dec_T 2 1) as [Heq|_]; [lra|].
  replace (11 - 10) with 1 by lra.
  replace (15 - 10) with (INR 5) by (simpl; lra).
  rewrite Rpower_1 by lra. rewrite Rpower_pow by lra.
  simpl. lra.
Qed.

(** C1, as stated, fails.  A composite function with zoom stops [10, 15]
    that declares base 2, bound at zoom 12: at zoom 11 the binder's factor
    is not the position of 11 on the exponential curve of the declared
    base (the binder returns 1/5, the curve of base 2 gives 1/31). *)
Lemma interpolationFactor_not_at_declared_base :
  let function := Scenario.stops_10_15 2 in
  let b :=
    CompositeFunctionPaintPropertyBinder.make Scenario.A function 12 1%Z in
  CompositeFunctionPaintPropertyBinder.interpolationFactor b 11
  <> util.interpolationFactor
       (CompositeFunction.base function)
       (fst (CompositeFunctionPaintPropertyBinder.coveringRanges b)) 11.
Proof.
  intros function b.
  rewrite composite_factor_linear.
  subst b function.
  stored_range.
  rewrite exponential_factor_base_two. lra.
Qed.

(** C1, amended.  The interpolation factor of a composite-function binder
    is the normalised position of [currentZoom] within the zoom range
    stored with the binder (for a binder built by the constructor: the
    range bracketing the construction zoom), computed with the fixed base
    1.0, that is, linearly: [(currentZoom - min) / (max - min)], for every
    [currentZoom] and whatever base the function declares.  It is the
    position on the curve of the function's declared base when that base
    is 1.0. *)
Theorem interpolationFactor_uses_base_one :
  forall (Feature T : Type) (A : attributes.Attribute T)
         (b : CompositeFunctionPaintPropertyBinder.t Feature A)
         (currentZoom : R),
    let range :=
      fst (CompositeFunctionPaintPropertyBinder.coveringRanges b) in
    CompositeFunctionPaintPropertyBinder.interpolationFactor b currentZoom
    = util.interpolationFactor 1 range currentZoom
    /\ CompositeFunctionPaintPropertyBinder.interpolationFactor b currentZoom
       = (currentZoom - Range.min range) / (Range.max range - Range.min range)
    /\ (forall (function : CompositeFunction.t Feature T) (zoom : R)
               (defaultValue : T),
           b = CompositeFunctionPaintPropertyBinder.make
                 A function zoom defaultValue ->
           range = fst (CompositeFunction.coveringRanges function zoom))
    /\ (CompositeFunction.base
          (CompositeFunctionPaintPropertyBinder.function b) = 1 ->
        CompositeFunctionPaintPropertyBinder.interpolationFactor b currentZoom
        = util.interpolationFactor
            (CompositeFunction.base
               (CompositeFunctionPaintPropertyBinder.function b))
            range currentZoom).
Proof.
  intros Feature T A b currentZoom range. repeat split.
  - apply composite_factor_linear.
  - intros function zoom defaultValue Hb. subst range b. reflexivity.
  - intros Hbase. rewrite Hbase. reflexivity.
Qed.

Lemma interpolationFactor_uses_base_one_witness :
  let b :=
    CompositeFunctionPaintPropertyBinder.make Scenario.A
      (Scenario.stops_10_15 1) 12 1%Z in
  CompositeFunction.base (CompositeFunctionPaintPropertyBinder.function b) = 1
  /\ b = CompositeFunctionPaintPropertyBinder.make Scenario.A
           (Scenario.stops_10_15 1) 12 1%Z
  /\ fst (CompositeFunctionPaintPropertyBinder.coveringRanges b)
     = fst (CompositeFunction.coveringRanges (Scenario.stops_10_15 1) 12)
  /\ CompositeFunctionPaintPropertyBinder.interpolationFactor b 11
     = util.interpolationFactor
         (CompositeFunction.base
            (CompositeFunctionPaintPropertyBinder.function b))
         (fst (CompositeFunctionPaintPropertyBinder.coveringRanges b)) 11.
Proof.
  intros b.
  assert (Hbase : CompositeFunction.base
                    (CompositeFunctionPaintPropertyBinder.function b) = 1)
    by reflexivity.
  assert (Hb : b = CompositeFunctionPaintPropertyBinder.make Scenario.A
                     (Scenario.stops_10_15 1) 12 1%Z)
    by reflexivity.
  split; [exact Hbase|split; [exact Hb|split]].
  - exact (proj1 (proj2 (proj2 (interpolationFactor_uses_base_one
                                  Scenario.Feature Z Scenario.A b 11)))
             (Scenario.stops_10_15 1) 12 1%Z Hb).
  - exact (proj2 (proj2 (proj2 (interpolationFactor_uses_base_one
                                  Scenario.Feature Z Scenario.A b 11)))
             Hbase).
Defined.

(** C4.  Whatever base the function declares, and so for base 1.0: over a
    zoom range with lower stop below upper stop, the interpolation factor
    of a composite-function binder is non-decreasing in the zoom within
    the range, is 0 at the lower stop and 1 at the upper stop (and so
    stays within [0, 1] in between); with zoom stops [10, 15] and base 1.0
    the factor at zoom 12.5 is 0.5. *)
Theorem interpolationFactor_monotone_from_0_to_1 :
  (forall (Feature T : Type) (A : attributes.Attribute T)
          (b : CompositeFunctionPaintPropertyBinder.t Feature A),
      let range :=
        fst (CompositeFunctionPaintPropertyBinder.coveringRanges b) in
      Range.min range < Range.max range ->
      (forall z1 z2 : R,
          Range.min range <= z1 -> z1 <= z2 -> z2 <= Range.max range ->
          CompositeFunctionPaintPropertyBinder.interpolationFactor b z1
          <= CompositeFunctionPaintPropertyBinder.interpolationFactor b z2)
      /\ CompositeFunctionPaintPropertyBinder.interpolationFactor
           b (Range.min range) = 0
      /\ CompositeFunctionPaintPropertyBinder.interpolationFactor
           b (Range.max range) = 1
      /\ (forall z : R,
             Range.min range <= z -> z <= Range.max range ->
             0 <= CompositeFunctionPaintPropertyBinder.interpolationFactor b z
             <= 1))
  /\ (forall zoom : R,
         CompositeFunctionPaintPropertyBinder.interpolationFactor
           (CompositeFunctionPaintPropertyBinder.make Scenario.A
              (Scenario.stops_10_15 1) zoom 1%Z)
           12.5
         = 0.5).
Proof.
  split.
  - intros Feature T A b range Hrange.
    assert (Hlower :
              CompositeFunctionPaintPropertyBinder.interpolationFactor
                b (Range.min range) = 0)
      by (rewrite composite_factor_linear; apply linear_factor_lower).
    assert (Hupper :
              CompositeFunctionPaintPropertyBinder.interpolationFactor
                b (Range.max range) = 1)
      by (rewrite composite_factor_linear;
          apply linear_factor_upper; exact Hrange).
    assert (Hmono : forall z1 z2 : R, z1 <= z2 ->
              CompositeFunctionPaintPropertyBinder.interpolationFactor b z1
              <= CompositeFunctionPaintPropertyBinder.interpolationFactor b z2)
      by (intros z1 z2 Hz; rewrite !composite_factor_linear;
          apply linear_factor_monotone; assumption).
    repeat split.
    + intros z1 z2 _ Hz _. now apply Hmono.
    + exact Hlower.
    + exact Hupper.
    + rewrite <- Hlower. now apply Hmono.
    + rewrite <- Hupper. now apply Hmono.
  - intros zoom. rewrite composite_factor_linear.
    stored_range.
    lra.
Qed.

Lemma interpolationFactor_monotone_from_0_to_1_witness :
  let b :=
    CompositeFunctionPaintPropertyBinder.make Scenario.A
      (Scenario.stops_10_15 1) 12 1%Z in
  let range := fst (CompositeFunctionPaintPropertyBinder.coveringRanges b) in
  Range.min range < Range.max range
  /\ (Range.min range <= 11 /\ 11 <= 14 /\ 14 <= Range.max range)
  /\ CompositeFunctionPaintPropertyBinder.interpolationFactor b 11
     <= CompositeFunctionPaintPropertyBinder.interpolationFactor b 14.
Proof.
  intros b range.
  assert (Hrange : Range.min range < Range.max range) by (simpl; lra).
  assert (H1 : Range.min range <= 11) by (simpl; lra).
  assert (H2 : 11 <= 14) by lra.
  assert (H3 : 14 <= Range.max range) by (simpl; lra).
  split; [exact Hrange|split; [exact (conj H1 (conj H2 H3))|]].
  exact (proj1 (proj1 interpolationFactor_monotone_from_0_to_1
                  Scenario.Feature Z Scenario.A b Hrange)
           11 14 H1 H2 H3).
Defined.

(** C5.  The interpolation factor of a composite-function binder is not
    clamped: over a zoom range with lower stop below upper stop it exceeds
    1 above the upper stop and is negative below the lower stop.  A binder
    built by the constructor keeps computing with the range that bracketed
    the construction zoom, whatever zoom it is asked about: with zoom
    stops [10, 15] the factor at zoom 17 is 7/5, greater than 1; with zoom
    stops [10, 15, 20] a binder built at zoom 12 still answers 7/5 at zoom
    17, computed over [10, 15], where a binder built at zoom 17 answers
    2/5, computed over [15, 20]. *)
Theorem interpolationFactor_not_clamped :
  (forall (Feature T : Type) (A : attributes.Attribute T)
          (b : CompositeFunctionPaintPropertyBinder.t Feature A),
      let range :=
        fst (CompositeFunctionPaintPropertyBinder.coveringRanges b) in
      Range.min range < Range.max range ->
      (forall currentZoom : R,
          Range.max range < currentZoom ->
          1 < CompositeFunctionPaintPropertyBinder.interpolationFactor
                b currentZoom)
      /\ (forall currentZoom : R,
             currentZoom < Range.min range ->
             CompositeFunctionPaintPropertyBinder.interpolationFactor
               b currentZoom < 0))
  /\ (forall (Feature T : Type) (A : attributes.Attribute T)
             (function : CompositeFunction.t Feature T) (zoom : R)
             (defaultValue : T) (currentZoom : R),
         CompositeFunctionPaintPropertyBinder.interpolationFactor
           (CompositeFunctionPaintPropertyBinder.make
              A function zoom defaultValue)
           currentZoom
         = util.interpolationFactor 1
             (fst (CompositeFunction.coveringRanges function zoom))
             currentZoom)
  /\ (forall zoom : R,
         let factor :=
           CompositeFunctionPaintPropertyBinder.interpolationFactor
             (CompositeFunctionPaintPropertyBinder.make Scenario.A
                (Scenario.stops_10_15 1) zoom 1%Z)
             17 in
         factor = 7 / 5 /\ 1 < factor)
  /\ (let b :=
        CompositeFunctionPaintPropertyBinder.make Scenario.A
          Scenario.stops_10_15_20 12 1%Z in
      let rebuilt :=
        CompositeFunctionPaintPropertyBinder.make Scenario.A
          Scenario.stops_10_15_20 17 1%Z in
      fst (CompositeFunctionPaintPropertyBinder.coveringRanges b)
      = Range.mk 10 15
      /\ CompositeFunctionPaintPropertyBinder.interpolationFactor b 17 = 7 / 5
      /\ fst (CompositeFunctionPaintPropertyBinder.coveringRanges rebuilt)
         = Range.mk 15 20
      /\ CompositeFunctionPaintPropertyBinder.interpolationFactor rebuilt 17
         = 2 / 5).
Proof.
  split; [|split; [|split]].
  - intros Feature T A b range Hrange. split.
    + intros currentZoom Hz.
      rewrite composite_factor_linear. fold range.
      rewrite <- (linear_factor_upper (Range.min range) (Range.max range))
        by exact Hrange.
      now apply linear_factor_strictly_monotone.
    + intros currentZoom Hz.
      rewrite composite_factor_linear. fold range.
      rewrite <- (linear_factor_lower (Range.min range) (Range.max range)).
      now apply linear_factor_strictly_monotone.
  - reflexivity.
  - intros zoom factor. subst factor. rewrite composite_factor_linear.
    stored_range.
    split; lra.
  - intros b rebuilt.
    assert (Hb : fst (CompositeFunctionPaintPropertyBinder.coveringRanges b)
                 = Range.mk 10 15).
    { subst b.
      stored_range.
      destruct (Rlt_dec 12 15) as [_|Hge]; [reflexivity|lra]. }
    assert (Hr : fst (CompositeFunctionPaintPropertyBinder.coveringRanges
                        rebuilt)
                 = Range.mk 15 20).
    { subst rebuilt.
      stored_range.
      destruct (Rlt_dec 17 15) as [Hlt|_]; [lra|reflexivity]. }
    repeat split.
    + exact Hb.
    + rewrite composite_factor_linear, Hb. cbn [Range.min Range.max]. lra.
    + exact Hr.
    + rewrite composite_factor_linear, Hr. cbn [Range.min Range.max]. lra.
Qed.

Lemma interpolationFactor_not_clamped_witness :
  let b :=
    CompositeFunctionPaintPropertyBinder.make Scenario.A
      (Scenario.stops_10_15 1) 12 1%Z in
  let range := fst (CompositeFunctionPaintPropertyBinder.coveringRanges b) in
  Range.min range < Range.max range
  /\ Range.max range < 17
  /\ 1 < CompositeFunctionPaintPropertyBinder.interpolationFactor b 17.
Proof.
  intros b range.
  assert (Hrange : Range.min range < Range.max range) by (simpl; lra).
  assert (Hz : Range.max range < 17) by (simpl; lra).
  split; [exact Hrange|split; [exact Hz|]].
  exact (proj1 (proj1 interpolationFactor_not_clamped
                  Scenario.Feature Z Scenario.A b Hrange)
           17 Hz).
Defined.

(** ** Further properties of the binders *)

Local Close Scope R_scope.

(** *** The counting monad *)

Lemma Counted_bind_result (A B : Type) (m : Counted.t A)
    (k : A -> Counted.t B) :
  Counted.result (Counted.bind m k) = Counted.result (k (Counted.result m)).
Proof.
  destruct m as [a n]. unfold Counted.bind, Counted.result. simpl.
  now destruct (k a).
Qed.

Lemma Counted_bind_count (A B : Type) (m : Counted.t A)
    (k : A -> Counted.t B) :
  Counted.count (Counted.bind m k)
  = Counted.count m + Counted.count (k (Counted.result m)).
Proof.
  destruct m as [a n]. unfold Counted.bind, Counted.count, Counted.result.
  simpl. now destruct (k a).
Qed.

(** *** One binder under arbitrary calls *)

Section BinderRuns.

Variable Feature : Type.
Variable P : PaintProperty.t.

Let binderT : Type := PaintPropertyBinder.t Feature P.

Lemma run_cons (c : PaintPropertyBinder.Call Feature P)
    (cs : list (PaintPropertyBinder.Call Feature P)) (binder : binderT) :
  fst (PaintPropertyBinder.run (c :: cs) binder)
  = fst (PaintPropertyBinder.run cs
           (fst (PaintPropertyBinder.step c binder))).
Proof.
  simpl. destruct (PaintPropertyBinder.step c binder) as [b' r]. simpl.
  now destruct (PaintPropertyBinder.run cs b').
Qed.

(** An invariant of every single call is an invariant of every run. *)
Lemma run_invariant (I : binderT -> Prop) :
  (forall c binder, I binder -> I (fst (PaintPropertyBinder.step c binder))) ->
  forall cs binder, I binder -> I (fst (PaintPropertyBinder.run cs binder)).
Proof.
  intros Hstep cs. induction cs as [|c cs IH]; intros binder HI.
  - exact HI.
  - rewrite run_cons. apply IH, Hstep, HI.
Qed.

Lemma populate_kind (binder : binderT) (feature : Feature) (length : nat) :
  PaintPropertyBinder.kind
    (Counted.result
       (PaintPropertyBinder.populateVertexVector binder feature length))
  = PaintPropertyBinder.kind binder.
Proof. now destruct binder. Qed.

Lemma step_kind (c : PaintPropertyBinder.Call Feature P) (binder : binderT) :
  PaintPropertyBinder.kind (fst (PaintPropertyBinder.step c binder))
  = PaintPropertyBinder.kind binder.
Proof. destruct c; simpl; try reflexivity; now destruct binder. Qed.

Lemma run_kind (cs : list (PaintPropertyBinder.Call Feature P))
    (binder : binderT) :
  PaintPropertyBinder.kind (fst (PaintPropertyBinder.run cs binder))
  = PaintPropertyBinder.kind binder.
Proof.
  apply (run_invariant
           (fun b => PaintPropertyBinder.kind b
                     = PaintPropertyBinder.kind binder));
    [|reflexivity].
  intros c b Hb. now rewrite step_kind.
Qed.

Lemma step_bufferReady (c : PaintPropertyBinder.Call Feature P)
    (binder : binderT) :
  PaintPropertyBinder.bufferReady binder = true ->
  PaintPropertyBinder.bufferReady (fst (PaintPropertyBinder.step c binder))
  = true.
Proof.
  destruct c; simpl; try (intros H; exact H); now destruct binder.
Qed.

Lemma upload_bufferReady (binder : binderT) (context : gl.Context) :
  PaintPropertyBinder.bufferReady (PaintPropertyBinder.upload binder context)
  = true.
Proof. now destruct binder. Qed.

Lemma attributeBinding_defined (binder : binderT)
    (currentValue : PaintPropertyBinder.PropertyValue Feature P) :
  PaintPropertyBinder.attributeBinding binder currentValue <> None
  <-> PaintPropertyBinder.bufferReady binder
      || PossiblyEvaluatedPropertyValue.isConstant currentValue = true.
Proof.
  destruct binder as [b|b|b]; simpl.
  - split; [reflexivity|discriminate].
  - unfold SourceFunctionPaintPropertyBinder.attributeBinding.
    destruct currentValue; simpl;
      destruct (SourceFunctionPaintPropertyBinder.vertexBuffer b); simpl;
      split; intros H; simpl in *;
      solve [reflexivity | discriminate | now contradiction H].
  - unfold CompositeFunctionPaintPropertyBinder.attributeBinding.
    destruct currentValue; simpl;
      destruct (CompositeFunctionPaintPropertyBinder.vertexBuffer b); simpl;
      split; intros H; simpl in *;
      solve [reflexivity | discriminate | now contradiction H].
Qed.

End BinderRuns.

(** X1.  The constructor of [PaintPropertyBinder] picks the binder that
    matches the alternative of the property value it is given, and no call
    of the public interface (population, upload, the two queries), in any
    number and order, ever changes which binder the variant holds. *)
Theorem binder_kind_fixed_at_construction :
  forall (Feature : Type) (P : PaintProperty.t)
         (value : PaintPropertyBinder.PropertyValue Feature P) (zoom : R)
         (cs : list (PaintPropertyBinder.Call Feature P)),
    PaintPropertyBinder.kind (PaintPropertyBinder.make value zoom)
    = PaintPropertyBinder.valueKind value
    /\ PaintPropertyBinder.kind
         (fst (PaintPropertyBinder.run cs
                 (PaintPropertyBinder.make value zoom)))
       = PaintPropertyBinder.valueKind value.
Proof.
  intros Feature P value zoom cs.
  assert (Hmake : PaintPropertyBinder.kind
                    (PaintPropertyBinder.make value zoom)
                  = PaintPropertyBinder.valueKind value)
    by now destruct value.
  split; [exact Hmake|]. now rewrite run_kind.
Qed.

(** X2.  A constant binder is immutable: whatever calls are made on it, in
    whatever order (population with any feature and length, upload, the
    queries), it stays the binder it was, and its population never
    evaluates anything. *)
Theorem constant_binder_never_changes :
  forall (Feature : Type) (P : PaintProperty.t)
         (b : ConstantPaintPropertyBinder.t (PaintProperty.Type_ P))
         (cs : list (PaintPropertyBinder.Call Feature P)),
    fst (PaintPropertyBinder.run cs (PaintPropertyBinder.Constant b))
    = PaintPropertyBinder.Constant b
    /\ forall (feature : Feature) (length : nat),
         Counted.count
           (PaintPropertyBinder.populateVertexVector
              (PaintPropertyBinder.Constant (Feature := Feature) b)
              feature length)
         = 0.
Proof.
  intros Feature P b cs. split; [|reflexivity].
  apply (run_invariant Feature P
           (fun binder => binder = PaintPropertyBinder.Constant b));
    [|reflexivity].
  intros c binder ->. now destruct c.
Qed.

Section BinderPopulation.

Variable Feature : Type.
Variable P : PaintProperty.t.

Let binderT : Type := PaintPropertyBinder.t Feature P.

Lemma populate_count (binder : binderT) (feature : Feature) (length : nat) :
  Counted.count
    (PaintPropertyBinder.populateVertexVector binder feature length)
  = PaintPropertyBinder.evaluations binder.
Proof. now destruct binder. Qed.

Lemma populate_evaluations (binder : binderT) (feature : Feature)
    (length : nat) :
  PaintPropertyBinder.evaluations
    (Counted.result
       (PaintPropertyBinder.populateVertexVector binder feature length))
  = PaintPropertyBinder.evaluations binder.
Proof. now destruct binder. Qed.

(** The stream after one call, in closed form. *)
Lemma populate_stream (binder : binderT) (feature : Feature) (length : nat) :
  PaintPropertyBinder.vertexStream
    (Counted.result
       (PaintPropertyBinder.populateVertexVector binder feature length))
  = PaintPropertyBinder.vertexStream binder
    ++ PaintPropertyBinder.featureVertices binder feature
         (length - List.length (PaintPropertyBinder.vertexStream binder)).
Proof.
  destruct binder as [b|b|b].
  - reflexivity.
  - change (Counted.result
              (PaintPropertyBinder.populateVertexVector
                 (PaintPropertyBinder.SourceFunction b) feature length))
      with (PaintPropertyBinder.SourceFunction (P := P)
              (Counted.result
                 (SourceFunctionPaintPropertyBinder.populateVertexVector
                    b feature length))).
    rewrite source_populate_result.
    unfold PaintPropertyBinder.featureVertices.
    cbn [PaintPropertyBinder.vertexStream PaintPropertyBinder.featureVertex
         SourceFunctionPaintPropertyBinder.vertexVector].
    rewrite map_app, map_repeat, length_map. reflexivity.
  - change (Counted.result
              (PaintPropertyBinder.populateVertexVector
                 (PaintPropertyBinder.CompositeFunction b) feature length))
      with (PaintPropertyBinder.CompositeFunction (P := P)
              (Counted.result
                 (CompositeFunctionPaintPropertyBinder.populateVertexVector
                    b feature length))).
    rewrite composite_populate_result.
    unfold PaintPropertyBinder.featureVertices.
    cbn [PaintPropertyBinder.vertexStream PaintPropertyBinder.featureVertex
         CompositeFunctionPaintPropertyBinder.vertexVector].
    rewrite map_app, map_repeat, length_map. reflexivity.
Qed.

(** Population does not change what the binder writes for a feature. *)
Lemma populate_featureVertex (binder : binderT) (feature feature' : Feature)
    (length : nat) :
  PaintPropertyBinder.featureVertex
    (Counted.result
       (PaintPropertyBinder.populateVertexVector binder feature length))
    feature'
  = PaintPropertyBinder.featureVertex binder feature'.
Proof. now destruct binder. Qed.

Lemma populate_stream_length (binder : binderT) (feature : Feature)
    (length : nat) :
  List.length
    (PaintPropertyBinder.vertexStream
       (Counted.result
          (PaintPropertyBinder.populateVertexVector binder feature length)))
  = match PaintPropertyBinder.kind binder with
    | PaintPropertyBinder.ConstantKind => 0
    | _ => Nat.max (List.length (PaintPropertyBinder.vertexStream binder))
                   length
    end.
Proof.
  rewrite populate_stream, length_app.
  unfold PaintPropertyBinder.featureVertices.
  destruct binder as [b|b|b]; simpl; try rewrite repeat_length; lia.
Qed.

Lemma expectedStream_ext (binder binder' : binderT) :
  (forall feature,
      PaintPropertyBinder.featureVertex binder' feature
      = PaintPropertyBinder.featureVertex binder feature) ->
  forall calls prior,
    PaintPropertyBinder.expectedStream binder' prior calls
    = PaintPropertyBinder.expectedStream binder prior calls.
Proof.
  intros Hext calls. induction calls as [|call calls IH]; intros prior.
  - reflexivity.
  - simpl. unfold PaintPropertyBinder.featureVertices.
    now rewrite Hext, IH.
Qed.

Lemma expectedStream_constant (binder : binderT) :
  PaintPropertyBinder.kind binder = PaintPropertyBinder.ConstantKind ->
  forall calls prior,
    PaintPropertyBinder.expectedStream binder prior calls = [].
Proof.
  intros Hkind calls. induction calls as [|call calls IH]; intros prior.
  - reflexivity.
  - simpl. rewrite IH. destruct binder; try discriminate Hkind. reflexivity.
Qed.

End BinderPopulation.

(** X3.  What a sequence of [populateVertexVector] calls leaves in the
    vertex stream of a binder: the stream it had, followed, for each call
    in order, by the vertex the binder writes for that call's feature,
    repeated as many times as the call's target length exceeds the vertex
    count reached so far (not at all when it does not exceed it).  So with
    target lengths that grow from call to call, feature number k owns
    exactly the positions from the previous target length up to its
    own. *)
Theorem populateSequence_stream_contents :
  forall (Feature : Type) (P : PaintProperty.t)
         (binder : PaintPropertyBinder.t Feature P)
         (calls : list (Feature * nat)),
    PaintPropertyBinder.vertexStream
      (PaintPropertyBinder.populateSequence binder calls)
    = PaintPropertyBinder.vertexStream binder
      ++ PaintPropertyBinder.expectedStream binder
           (length (PaintPropertyBinder.vertexStream binder)) calls.
Proof.
  intros Feature P binder calls. revert binder.
  induction calls as [|[feature len] calls IH]; intros binder.
  - simpl. now rewrite app_nil_r.
  - change (PaintPropertyBinder.populateSequence binder
              ((feature, len) :: calls))
      with (PaintPropertyBinder.populateSequence
              (Counted.result
                 (PaintPropertyBinder.populateVertexVector binder feature len))
              calls).
    rewrite IH.
    rewrite (expectedStream_ext Feature P binder _
               (fun f => populate_featureVertex Feature P binder feature f
                           len)).
    rewrite populate_stream_length, populate_stream, <- app_assoc.
    cbn [PaintPropertyBinder.expectedStream fst snd].
    destruct (PaintPropertyBinder.kind binder) eqn:Hkind; try reflexivity.
    now rewrite !(expectedStream_constant Feature P binder Hkind).
Qed.

(** *** The binders of a layer *)

Section LayerBinders.

Variable Feature : Type.

Lemma populateVertexVectors_cons (P : PaintProperty.t)
    (Ps : list PaintProperty.t)
    (binders : PaintPropertyBinders.Binders Feature (P :: Ps))
    (feature : Feature) (length : nat) :
  Counted.result
    (PaintPropertyBinders.populateVertexVectors (P :: Ps) binders
       feature length)
  = (Counted.result
       (PaintPropertyBinder.populateVertexVector (fst binders) feature length),
     Counted.result
       (PaintPropertyBinders.populateVertexVectors Ps (snd binders)
          feature length)).
Proof.
  cbn [PaintPropertyBinders.populateVertexVectors].
  now rewrite !Counted_bind_result.
Qed.

Lemma populateVertexVectors_count (Ps : list PaintProperty.t)
    (binders : PaintPropertyBinders.Binders Feature Ps)
    (feature : Feature) (length : nat) :
  Counted.count
    (PaintPropertyBinders.populateVertexVectors Ps binders feature length)
  = PaintPropertyBinders.functionBound Ps binders.
Proof.
  induction Ps as [|P Ps IH].
  - reflexivity.
  - cbn [PaintPropertyBinders.populateVertexVectors
         PaintPropertyBinders.functionBound].
    rewrite !Counted_bind_count, populate_count, IH.
    cbn [Counted.ret Counted.count snd]. lia.
Qed.

Lemma populateVertexVectors_functionBound (Ps : list PaintProperty.t)
    (binders : PaintPropertyBinders.Binders Feature Ps)
    (feature : Feature) (length : nat) :
  PaintPropertyBinders.functionBound Ps
    (Counted.result
       (PaintPropertyBinders.populateVertexVectors Ps binders feature length))
  = PaintPropertyBinders.functionBound Ps binders.
Proof.
  induction Ps as [|P Ps IH].
  - reflexivity.
  - rewrite populateVertexVectors_cons.
    cbn [PaintPropertyBinders.functionBound fst snd].
    now rewrite populate_evaluations, IH.
Qed.

Lemma populateVertexVectors_streamSizes (Ps : list PaintProperty.t)
    (binders : PaintPropertyBinders.Binders Feature Ps)
    (feature : Feature) (length : nat) :
  PaintPropertyBinders.streamSizes Ps
    (Counted.result
       (PaintPropertyBinders.populateVertexVectors Ps binders feature length))
  = map (fun size => Nat.max size length)
      (PaintPropertyBinders.streamSizes Ps binders).
Proof.
  induction Ps as [|P Ps IH].
  - reflexivity.
  - rewrite populateVertexVectors_cons.
    cbn [PaintPropertyBinders.streamSizes fst snd].
    rewrite populate_kind, populate_stream_length, IH.
    now destruct (PaintPropertyBinder.kind (fst binders)).
Qed.

Lemma populate_again (P : PaintProperty.t)
    (binder : PaintPropertyBinder.t Feature P)
    (feature feature' : Feature) (length length' : nat) :
  length' <= length ->
  Counted.result
    (PaintPropertyBinder.populateVertexVector
       (Counted.result
          (PaintPropertyBinder.populateVertexVector binder feature length))
       feature' length')
  = Counted.result
      (PaintPropertyBinder.populateVertexVector binder feature length).
Proof.
  intros Hle.
  destruct (PaintPropertyBinder.kind binder) eqn:Hkind.
  - destruct binder; try discriminate Hkind. reflexivity.
  - apply populate_short. rewrite populate_stream_length, Hkind. lia.
  - apply populate_short. rewrite populate_stream_length, Hkind. lia.
Qed.

Lemma populateVertexVectors_again (Ps : list PaintProperty.t)
    (binders : PaintPropertyBinders.Binders Feature Ps)
    (feature feature' : Feature) (length length' : nat) :
  length' <= length ->
  Counted.result
    (PaintPropertyBinders.populateVertexVectors Ps
       (Counted.result
          (PaintPropertyBinders.populateVertexVectors Ps binders
             feature length))
       feature' length')
  = Counted.result
      (PaintPropertyBinders.populateVertexVectors Ps binders feature length).
Proof.
  intros Hle. induction Ps as [|P Ps IH].
  - reflexivity.
  - rewrite !populateVertexVectors_cons. cbn [fst snd].
    now rewrite populate_again, IH.
Qed.

End LayerBinders.

(** X4.  One [populateVertexVectors] call on the binders of a layer makes
    exactly one [function.evaluate] call per function-bound (source or
    composite) property and none for a constant one, whatever the target
    length, also when no vertex is appended; the number of function-bound
    properties is the same after the call, so every feature costs the same
    number of evaluations. *)
Theorem populateVertexVectors_evaluations :
  forall (Feature : Type) (Ps : list PaintProperty.t)
         (binders : PaintPropertyBinders.Binders Feature Ps)
         (feature : Feature) (length : nat),
    Counted.count
      (PaintPropertyBinders.populateVertexVectors Ps binders feature length)
    = PaintPropertyBinders.functionBound Ps binders
    /\ PaintPropertyBinders.functionBound Ps
         (Counted.result
            (PaintPropertyBinders.populateVertexVectors Ps binders
               feature length))
       = PaintPropertyBinders.functionBound Ps binders.
Proof.
  intros Feature Ps binders feature length. split.
  - apply populateVertexVectors_count.
  - apply populateVertexVectors_functionBound.
Qed.

(** X5.  One [populateVertexVectors(feature, length)] call raises the
    vertex count of every function-bound binder of the layer to [length]
    and leaves a count that already exceeds [length] as it is.  So when no
    stream is longer than [length] before the call, all streams hold
    exactly [length] vertices after it: the per-vertex attributes of all
    properties stay aligned with one another. *)
Theorem populateVertexVectors_aligns_streams :
  forall (Feature : Type) (Ps : list PaintProperty.t)
         (binders : PaintPropertyBinders.Binders Feature Ps)
         (feature : Feature) (length : nat),
    let after :=
      Counted.result
        (PaintPropertyBinders.populateVertexVectors Ps binders
           feature length) in
    PaintPropertyBinders.streamSizes Ps after
    = map (fun size => Nat.max size length)
        (PaintPropertyBinders.streamSizes Ps binders)
    /\ (Forall (fun size => size <= length)
          (PaintPropertyBinders.streamSizes Ps binders) ->
        Forall (fun size => size = length)
          (PaintPropertyBinders.streamSizes Ps after)).
Proof.
  intros Feature Ps binders feature length after. subst after.
  rewrite populateVertexVectors_streamSizes. split; [reflexivity|].
  intros Hle. rewrite Forall_map.
  eapply Forall_impl; [|exact Hle]. simpl. intros size Hsize. lia.
Qed.

Lemma populateVertexVectors_aligns_streams_witness :
  let Ps := [Scenario.property; Scenario.property; Scenario.property] in
  let binders :=
    PaintPropertyBinders.make Ps
      (PossiblyEvaluatedPropertyValue.Source Scenario.sizeTimesTwo,
       (PossiblyEvaluatedPropertyValue.Constant 7%Z,
        (PossiblyEvaluatedPropertyValue.Composite (Scenario.stops_10_15 1),
         tt)))
      12%R in
  Forall (fun size => size <= 4) (PaintPropertyBinders.streamSizes Ps binders)
  /\ Forall (fun size => size = 4)
       (PaintPropertyBinders.streamSizes Ps
          (Counted.result
             (PaintPropertyBinders.populateVertexVectors Ps binders
                (Scenario.mkFeature 3) 4))).
Proof.
  intros Ps binders.
  assert (Hle : Forall (fun size => size <= 4)
                  (PaintPropertyBinders.streamSizes Ps binders))
    by (repeat constructor).
  split; [exact Hle|].
  exact (proj2 (populateVertexVectors_aligns_streams
                  Scenario.Feature Ps binders (Scenario.mkFeature 3) 4)
           Hle).
Defined.

(** X6.  Population is idempotent in its target length: after a
    [populateVertexVectors] call with target length [length], a further
    call with a target length that does not exceed [length] leaves every
    binder of the layer exactly as it is, whatever feature it is given. *)
Theorem populateVertexVectors_idempotent :
  forall (Feature : Type) (Ps : list PaintProperty.t)
         (binders : PaintPropertyBinders.Binders Feature Ps)
         (feature feature' : Feature) (length length' : nat),
    length' <= length ->
    Counted.result
      (PaintPropertyBinders.populateVertexVectors Ps
         (Counted.result
            (PaintPropertyBinders.populateVertexVectors Ps binders
               feature length))
         feature' length')
    = Counted.result
        (PaintPropertyBinders.populateVertexVectors Ps binders
           feature length).
Proof.
  intros Feature Ps binders feature feature' length length'.
  apply populateVertexVectors_again.
Qed.

Lemma populateVertexVectors_idempotent_witness :
  let Ps := [Scenario.property; Scenario.property] in
  let binders :=
    PaintPropertyBinders.make Ps
      (PossiblyEvaluatedPropertyValue.Source Scenario.sizeTimesTwo,
       (PossiblyEvaluatedPropertyValue.Composite (Scenario.stops_10_15 1),
        tt))
      12%R in
  3 <= 4
  /\ Counted.result
       (PaintPropertyBinders.populateVertexVectors Ps
          (Counted.result
             (PaintPropertyBinders.populateVertexVectors Ps binders
                (Scenario.mkFeature 3) 4))
          (Scenario.mkFeature 5) 3)
     = Counted.result
         (PaintPropertyBinders.populateVertexVectors Ps binders
            (Scenario.mkFeature 3) 4).
Proof.
  intros Ps binders.
  assert (Hle : 3 <= 4) by lia.
  split; [exact Hle|].
  exact (populateVertexVectors_idempotent Scenario.Feature Ps binders
           (Scenario.mkFeature 3) (Scenario.mkFeature 5) 4 3 Hle).
Defined.

Section LayerRuns.

Variable Feature : Type.
Variable Ps : list PaintProperty.t.

Let bindersT : Type := PaintPropertyBinders.Binders Feature Ps.

Lemma binders_run_cons (c : PaintPropertyBinders.Call Feature Ps)
    (cs : list (PaintPropertyBinders.Call Feature Ps)) (binders : bindersT) :
  fst (PaintPropertyBinders.run (c :: cs) binders)
  = fst (PaintPropertyBinders.run cs
           (fst (PaintPropertyBinders.step c binders))).
Proof.
  simpl. destruct (PaintPropertyBinders.step c binders) as [b' r]. simpl.
  now destruct (PaintPropertyBinders.run cs b').
Qed.

Lemma binders_run_invariant (I : bindersT -> Prop) :
  (forall c binders,
      I binders -> I (fst (PaintPropertyBinders.step c binders))) ->
  forall cs binders,
    I binders -> I (fst (PaintPropertyBinders.run cs binders)).
Proof.
  intros Hstep cs. induction cs as [|c cs IH]; intros binders HI.
  - exact HI.
  - rewrite binders_run_cons. apply IH, Hstep, HI.
Qed.

End LayerRuns.

Section LayerBuffers.

Variable Feature : Type.

Lemma populate_bufferReady (P : PaintProperty.t)
    (binder : PaintPropertyBinder.t Feature P) (feature : Feature)
    (length : nat) :
  PaintPropertyBinder.bufferReady
    (Counted.result
       (PaintPropertyBinder.populateVertexVector binder feature length))
  = PaintPropertyBinder.bufferReady binder.
Proof. now destruct binder. Qed.

Lemma populateVertexVectors_bufferReady (Ps : list PaintProperty.t)
    (binders : PaintPropertyBinders.Binders Feature Ps) (feature : Feature)
    (length : nat) :
  PaintPropertyBinders.bufferReady Ps
    (Counted.result
       (PaintPropertyBinders.populateVertexVectors Ps binders feature length))
  = PaintPropertyBinders.bufferReady Ps binders.
Proof.
  induction Ps as [|P Ps IH].
  - reflexivity.
  - rewrite populateVertexVectors_cons.
    cbn [PaintPropertyBinders.bufferReady fst snd].
    now rewrite populate_bufferReady, IH.
Qed.

Lemma binders_upload_bufferReady (Ps : list PaintProperty.t)
    (binders : PaintPropertyBinders.Binders Feature Ps)
    (context : gl.Context) :
  PaintPropertyBinders.bufferReady Ps
    (PaintPropertyBinders.upload Ps binders context)
  = true.
Proof.
  induction Ps as [|P Ps IH].
  - reflexivity.
  - cbn [PaintPropertyBinders.bufferReady PaintPropertyBinders.upload
         fst snd].
    now rewrite upload_bufferReady, IH.
Qed.

Lemma binders_step_bufferReady (Ps : list PaintProperty.t)
    (c : PaintPropertyBinders.Call Feature Ps)
    (binders : PaintPropertyBinders.Binders Feature Ps) :
  PaintPropertyBinders.bufferReady Ps binders = true ->
  PaintPropertyBinders.bufferReady Ps
    (fst (PaintPropertyBinders.step c binders))
  = true.
Proof.
  intros Hready. destruct c; cbn [PaintPropertyBinders.step fst].
  - now rewrite populateVertexVectors_bufferReady.
  - apply binders_upload_bufferReady.
  - exact Hready.
  - exact Hready.
Qed.

Lemma attributeBindings_defined (Ps : list PaintProperty.t)
    (binders : PaintPropertyBinders.Binders Feature Ps)
    (currentProperties : PaintPropertyBinders.EvaluatedProperties Feature Ps) :
  PaintPropertyBinders.attributeBindings Ps binders currentProperties <> None
  <-> PaintPropertyBinders.bindable Ps binders currentProperties = true.
Proof.
  induction Ps as [|P Ps IH].
  - simpl. split; [reflexivity|discriminate].
  - cbn [PaintPropertyBinders.attributeBindings PaintPropertyBinders.bindable].
    rewrite andb_true_iff, <- IH, <- attributeBinding_defined.
    destruct (PaintPropertyBinder.attributeBinding
                (fst binders) (fst currentProperties));
      destruct (PaintPropertyBinders.attributeBindings Ps
                  (snd binders) (snd currentProperties));
      split; intros H; try (split; congruence); try congruence;
      destruct H; congruence.
Qed.

Lemma bufferReady_bindable (Ps : list PaintProperty.t)
    (binders : PaintPropertyBinders.Binders Feature Ps)
    (currentProperties : PaintPropertyBinders.EvaluatedProperties Feature Ps) :
  PaintPropertyBinders.bufferReady Ps binders = true ->
  PaintPropertyBinders.bindable Ps binders currentProperties = true.
Proof.
  induction Ps as [|P Ps IH]; [reflexivity|].
  cbn [PaintPropertyBinders.bufferReady PaintPropertyBinders.bindable].
  rewrite !andb_true_iff. intros [H1 H2]. split.
  - now rewrite H1.
  - now apply IH.
Qed.

Lemma fresh_bindable (Ps : list PaintProperty.t)
    (properties : PaintPropertyBinders.EvaluatedProperties Feature Ps)
    (zoom : R) :
  PaintPropertyBinders.bindable Ps
    (PaintPropertyBinders.make Ps properties zoom) properties = true
  <-> PaintPropertyBinders.functionBound Ps
        (PaintPropertyBinders.make Ps properties zoom) = 0.
Proof.
  induction Ps as [|P Ps IH].
  - simpl. tauto.
  - cbn [PaintPropertyBinders.bindable PaintPropertyBinders.functionBound
         PaintPropertyBinders.make fst snd].
    rewrite andb_true_iff, IH.
    destruct properties as [value properties]. cbn [fst snd].
    destruct value; simpl; split; intros H;
      try (split; [reflexivity|tauto]); try tauto;
      (lia || (destruct H as [H _]; discriminate H)).
Qed.

End LayerBuffers.

(** X7.  Once the binders of a layer have been uploaded, [attributeBindings]
    is defined for every collection of current property values, constant or
    not, and stays so after any further calls, population and repeated
    upload included: no call ever empties a buffer handle again. *)
Theorem attributeBindings_defined_after_upload :
  forall (Feature : Type) (Ps : list PaintProperty.t)
         (binders : PaintPropertyBinders.Binders Feature Ps)
         (context : gl.Context)
         (cs : list (PaintPropertyBinders.Call Feature Ps))
         (currentProperties :
            PaintPropertyBinders.EvaluatedProperties Feature Ps),
    PaintPropertyBinders.attributeBindings Ps
      (fst (PaintPropertyBinders.run cs
              (PaintPropertyBinders.upload Ps binders context)))
      currentProperties
    <> None.
Proof.
  intros Feature Ps binders context cs currentProperties.
  apply attributeBindings_defined, bufferReady_bindable.
  apply (binders_run_invariant Feature Ps
           (fun bs => PaintPropertyBinders.bufferReady Ps bs = true)).
  - intros c bs. apply binders_step_bufferReady.
  - apply binders_upload_bufferReady.
Qed.

(** X8.  [attributeBindings] is defined exactly when every property of the
    layer either has its buffer handle set (or is bound by a constant
    binder, which has none) or currently evaluates to a constant.  For
    binders fresh from the constructor, asked for the very property values
    they were built from, that is exactly when no property of the layer is
    function-bound: a layer with a source or composite property must be
    uploaded first. *)
Theorem attributeBindings_defined_iff :
  forall (Feature : Type) (Ps : list PaintProperty.t),
    (forall (binders : PaintPropertyBinders.Binders Feature Ps)
            (currentProperties :
               PaintPropertyBinders.EvaluatedProperties Feature Ps),
        PaintPropertyBinders.attributeBindings Ps binders currentProperties
        <> None
        <-> PaintPropertyBinders.bindable Ps binders currentProperties = true)
    /\ (forall (properties :
                  PaintPropertyBinders.EvaluatedProperties Feature Ps)
               (zoom : R),
           PaintPropertyBinders.attributeBindings Ps
             (PaintPropertyBinders.make Ps properties zoom) properties
           <> None
           <-> PaintPropertyBinders.functionBound Ps
                 (PaintPropertyBinders.make Ps properties zoom) = 0).
Proof.
  intros Feature Ps. split.
  - apply attributeBindings_defined.
  - intros properties zoom.
    rewrite attributeBindings_defined. apply fresh_bindable.
Qed.

Section LayerUniforms.

Variable Feature : Type.

Lemma populate_uniform (P : PaintProperty.t)
    (binder : PaintPropertyBinder.t Feature P) (feature : Feature)
    (length : nat) (currentZoom : R) :
  PaintPropertyBinder.interpolationUniformValue
    (Counted.result
       (PaintPropertyBinder.populateVertexVector binder feature length))
    currentZoom
  = PaintPropertyBinder.interpolationUniformValue binder currentZoom.
Proof. now destruct binder. Qed.

Lemma upload_uniform (P : PaintProperty.t)
    (binder : PaintPropertyBinder.t Feature P) (context : gl.Context)
    (currentZoom : R) :
  PaintPropertyBinder.interpolationUniformValue
    (PaintPropertyBinder.upload binder context) currentZoom
  = PaintPropertyBinder.interpolationUniformValue binder currentZoom.
Proof. now destruct binder. Qed.

Lemma binders_step_uniformValues (Ps : list PaintProperty.t)
    (c : PaintPropertyBinders.Call Feature Ps)
    (binders : PaintPropertyBinders.Binders Feature Ps) (currentZoom : R) :
  PaintPropertyBinders.uniformValues Ps
    (fst (PaintPropertyBinders.step c binders)) currentZoom
  = PaintPropertyBinders.uniformValues Ps binders currentZoom.
Proof.
  destruct c; cbn [PaintPropertyBinders.step fst]; try reflexivity.
  - induction Ps as [|P Ps IH]; [reflexivity|].
    rewrite populateVertexVectors_cons.
    cbn [PaintPropertyBinders.uniformValues fst snd].
    now rewrite populate_uniform, IH.
  - induction Ps as [|P Ps IH]; [reflexivity|].
    cbn [PaintPropertyBinders.uniformValues PaintPropertyBinders.upload
         fst snd].
    now rewrite upload_uniform, IH.
Qed.

End LayerUniforms.

(** X9.  The interpolation uniforms of a layer depend only on how its
    binders were built and on the zoom asked about: no sequence of calls
    (population with any features and lengths, upload, the queries)
    changes what [uniformValues] returns for a given zoom.  In particular
    the zoom range a composite binder interpolates over is never
    recomputed. *)
Theorem uniformValues_unchanged_by_calls :
  forall (Feature : Type) (Ps : list PaintProperty.t)
         (binders : PaintPropertyBinders.Binders Feature Ps)
         (cs : list (PaintPropertyBinders.Call Feature Ps))
         (currentZoom : R),
    PaintPropertyBinders.uniformValues Ps
      (fst (PaintPropertyBinders.run cs binders)) currentZoom
    = PaintPropertyBinders.uniformValues Ps binders currentZoom.
Proof.
  intros Feature Ps binders cs currentZoom.
  apply (binders_run_invariant Feature Ps
           (fun bs =>
              PaintPropertyBinders.uniformValues Ps bs currentZoom
              = PaintPropertyBinders.uniformValues Ps binders currentZoom));
    [|reflexivity].
  intros c bs Hbs. now rewrite binders_step_uniformValues.
Qed.

Lemma attributeBinding_layout (Feature : Type) (P : PaintProperty.t)
    (binder : PaintPropertyBinder.t Feature P)
    (currentValue : PaintPropertyBinder.PropertyValue Feature P)
    (r : PaintPropertyBinder.AttributeBinding P) :
  PaintPropertyBinder.attributeBinding binder currentValue = Some r ->
  match PaintPropertyBinder.kind binder with
  | PaintPropertyBinder.CompositeFunctionKind => exists x, r = inr x
  | _ => exists x, r = inl x
  end.
Proof.
  destruct binder as [b|b|b]; simpl.
  - intros [= <-]. now eexists.
  - destruct (SourceFunctionPaintPropertyBinder.attributeBinding
                b currentValue);
      simpl; [intros [= <-]; now eexists|discriminate].
  - destruct (CompositeFunctionPaintPropertyBinder.attributeBinding
                b currentValue);
      simpl; [intros [= <-]; now eexists|discriminate].
Qed.

(** X10.  Which of the two binding layouts [attributeBinding] returns, the
    plain [Attribute::Binding] or the zoom-interpolated one, is decided by
    the property value the binder was built from and by nothing else: a
    binder built from a composite function always returns the
    zoom-interpolated layout, one built from a constant or a source
    function always the plain one, after any calls and for any current
    value, constant or not. *)
Theorem attributeBinding_layout_fixed_at_construction :
  forall (Feature : Type) (P : PaintProperty.t)
         (value : PaintPropertyBinder.PropertyValue Feature P) (zoom : R)
         (cs : list (PaintPropertyBinder.Call Feature P))
         (currentValue : PaintPropertyBinder.PropertyValue Feature P)
         (r : PaintPropertyBinder.AttributeBinding P),
    PaintPropertyBinder.attributeBinding
      (fst (PaintPropertyBinder.run cs (PaintPropertyBinder.make value zoom)))
      currentValue
    = Some r ->
    match PaintPropertyBinder.valueKind value with
    | PaintPropertyBinder.CompositeFunctionKind => exists x, r = inr x
    | _ => exists x, r = inl x
    end.
Proof.
  intros Feature P value zoom cs currentValue r Hr.
  apply attributeBinding_layout in Hr.
  rewrite run_kind in Hr. now destruct value.
Qed.

Lemma attributeBinding_layout_fixed_at_construction_witness :
  let value :=
    PossiblyEvaluatedPropertyValue.Composite (Scenario.stops_10_15 1) in
  let cs :=
    [PaintPropertyBinder.CallPopulateVertexVector Scenario.property
       (Scenario.mkFeature 3) 4;
     PaintPropertyBinder.CallUpload Scenario.Feature Scenario.property
       gl.context] in
  let r := inr (gl.ConstantAttributeBinding (5%Z, 5%Z)) in
  PaintPropertyBinder.attributeBinding
    (fst (PaintPropertyBinder.run cs
            (PaintPropertyBinder.make (P := Scenario.property) value 12%R)))
    (PossiblyEvaluatedPropertyValue.Constant 5%Z)
  = Some r
  /\ exists x, r = inr x.
Proof.
  intros value cs r.
  assert (Hr : PaintPropertyBinder.attributeBinding
                 (fst (PaintPropertyBinder.run cs
                         (PaintPropertyBinder.make (P := Scenario.property)
                            value 12%R)))
                 (PossiblyEvaluatedPropertyValue.Constant 5%Z)
               = Some r)
    by reflexivity.
  split; [exact Hr|].
  exact (attributeBinding_layout_fixed_at_construction
           Scenario.Feature Scenario.property value 12%R cs
           (PossiblyEvaluatedPropertyValue.Constant 5%Z) r Hr).
Defined.

Section LayerBindings.

Variable Feature : Type.

Lemma populate_attributeBinding (P : PaintProperty.t)
    (binder : PaintPropertyBinder.t Feature P) (feature : Feature)
    (length : nat)
    (currentValue : PaintPropertyBinder.PropertyValue Feature P) :
  PaintPropertyBinder.attributeBinding
    (Counted.result
       (PaintPropertyBinder.populateVertexVector binder feature length))
    currentValue
  = PaintPropertyBinder.attributeBinding binder currentValue.
Proof. now destruct binder. Qed.

Lemma populateVertexVectors_attributeBindings (Ps : list PaintProperty.t)
    (binders : PaintPropertyBinders.Binders Feature Ps) (feature : Feature)
    (length : nat)
    (currentProperties : PaintPropertyBinders.EvaluatedProperties Feature Ps) :
  PaintPropertyBinders.attributeBindings Ps
    (Counted.result
       (PaintPropertyBinders.populateVertexVectors Ps binders feature length))
    currentProperties
  = PaintPropertyBinders.attributeBindings Ps binders currentProperties.
Proof.
  induction Ps as [|P Ps IH]; [reflexivity|].
  rewrite populateVertexVectors_cons.
  cbn [PaintPropertyBinders.attributeBindings fst snd].
  now rewrite populate_attributeBinding, IH.
Qed.

End LayerBindings.

(** X11.  Population never shows in the attribute bindings: whatever
    [attributeBindings] returns for given current property values (bound
    buffers, broadcast constants, or nothing defined), it returns the same
    after any sequence of [populateVertexVectors] calls.  Vertices
    populated after an upload reach the bindings only through another
    upload. *)
Theorem attributeBindings_unchanged_by_population :
  forall (Feature : Type) (Ps : list PaintProperty.t)
         (calls : list (Feature * nat))
         (binders : PaintPropertyBinders.Binders Feature Ps)
         (currentProperties :
            PaintPropertyBinders.EvaluatedProperties Feature Ps),
    PaintPropertyBinders.attributeBindings Ps
      (fst (PaintPropertyBinders.run
              (map (fun call =>
                      PaintPropertyBinders.CallPopulateVertexVectors Ps
                        (fst call) (snd call))
                   calls)
              binders))
      currentProperties
    = PaintPropertyBinders.attributeBindings Ps binders currentProperties.
Proof.
  intros Feature Ps calls. induction calls as [|call calls IH];
    intros binders currentProperties.
  - reflexivity.
  - cbn [map]. rewrite binders_run_cons, IH.
    cbn [PaintPropertyBinders.step fst].
    apply populateVertexVectors_attributeBindings.
Qed.

(** X12.  After [upload], a function binder asked with a non-constant
    current value returns the binding of the buffer that the context
    created from the vertex stream as populated up to the upload: of the
    stream of source values for a source binder, of the stream of (min,
    max) pairs for a composite binder. *)
Theorem attributeBinding_after_upload_binds_populated_stream :
  forall (Feature T : Type) (A : attributes.Attribute T)
         (context : gl.Context)
         (currentValue : PossiblyEvaluatedPropertyValue.t Feature T),
    PossiblyEvaluatedPropertyValue.isConstant currentValue = false ->
    (forall b : SourceFunctionPaintPropertyBinder.t Feature A,
        SourceFunctionPaintPropertyBinder.attributeBinding
          (SourceFunctionPaintPropertyBinder.upload b context) currentValue
        = Some (gl.VariableAttributeBinding
                  (gl.createVertexBuffer context
                     (SourceFunctionPaintPropertyBinder.vertexVector b))))
    /\ (forall b : CompositeFunctionPaintPropertyBinder.t Feature A,
           CompositeFunctionPaintPropertyBinder.attributeBinding
             (CompositeFunctionPaintPropertyBinder.upload b context)
             currentValue
           = Some (gl.VariableAttributeBinding
                     (gl.createVertexBuffer context
                        (CompositeFunctionPaintPropertyBinder.vertexVector
                           b)))).
Proof.
  intros Feature T A context currentValue Hconst. split; intros b.
  - unfold SourceFunctionPaintPropertyBinder.attributeBinding.
    now rewrite Hconst.
  - unfold CompositeFunctionPaintPropertyBinder.attributeBinding.
    now rewrite Hconst.
Qed.

Lemma attributeBinding_after_upload_binds_populated_stream_witness :
  let currentValue :=
    PossiblyEvaluatedPropertyValue.Source Scenario.sizeTimesTwo in
  let b :=
    Counted.result
      (SourceFunctionPaintPropertyBinder.populateVertexVector
         (SourceFunctionPaintPropertyBinder.make Scenario.A
            Scenario.sizeTimesTwo 1%Z)
         (Scenario.mkFeature 3) 2) in
  PossiblyEvaluatedPropertyValue.isConstant currentValue = false
  /\ SourceFunctionPaintPropertyBinder.attributeBinding
       (SourceFunctionPaintPropertyBinder.upload b gl.context) currentValue
     = Some (gl.VariableAttributeBinding
               (gl.createVertexBuffer gl.context
                  (SourceFunctionPaintPropertyBinder.vertexVector b))).
Proof.
  intros currentValue b.
  assert (Hconst :
            PossiblyEvaluatedPropertyValue.isConstant currentValue = false)
    by reflexivity.
  split; [exact Hconst|].
  exact (proj1 (attributeBinding_after_upload_binds_populated_stream
                  Scenario.Feature Z Scenario.A gl.context currentValue
                  Hconst)
           b).
Defined.

Lemma step_uniform (Feature : Type) (P : PaintProperty.t)
    (c : PaintPropertyBinder.Call Feature P)
    (binder : PaintPropertyBinder.t Feature P) (currentZoom : R) :
  PaintPropertyBinder.interpolationUniformValue
    (fst (PaintPropertyBinder.step c binder)) currentZoom
  = PaintPropertyBinder.interpolationUniformValue binder currentZoom.
Proof.
  destruct c; cbn [PaintPropertyBinder.step fst]; try reflexivity.
  - apply populate_uniform.
  - apply upload_uniform.
Qed.

(** X13.  The interpolation uniform of a binder is a function of what the
    binder was built from and of the zoom asked about, whatever calls were
    made in between: 0 for a binder built from a constant or from a source
    function, and for one built from a composite function the base-1.0
    interpolation factor of the asked zoom over the zoom range that
    [coveringRanges] returned for the construction zoom. *)
Theorem interpolationUniformValue_fixed_at_construction :
  forall (Feature : Type) (P : PaintProperty.t)
         (value : PaintPropertyBinder.PropertyValue Feature P) (zoom : R)
         (cs : list (PaintPropertyBinder.Call Feature P)) (currentZoom : R),
    PaintPropertyBinder.interpolationUniformValue
      (fst (PaintPropertyBinder.run cs (PaintPropertyBinder.make value zoom)))
      currentZoom
    = attributes.mkInterpolationUniformValue
        match value with
        | PossiblyEvaluatedPropertyValue.Composite function =>
            util.interpolationFactor 1
              (fst (CompositeFunction.coveringRanges function zoom))
              currentZoom
        | _ => 0%R
        end.
Proof.
  intros Feature P value zoom cs currentZoom.
  transitivity (PaintPropertyBinder.interpolationUniformValue
                  (PaintPropertyBinder.make value zoom) currentZoom).
  - apply (run_invariant Feature P
             (fun b =>
                PaintPropertyBinder.interpolationUniformValue b currentZoom
                = PaintPropertyBinder.interpolationUniformValue
                    (PaintPropertyBinder.make value zoom) currentZoom));
      [|reflexivity].
    intros c b Hb. now rewrite step_uniform.
  - now destruct value.
Qed.
